(** * shortie: a URL shortener with usage statistics

    A shallow embedding of the storage layer ([storage.go]) and of the HTTP
    handlers ([api.go]) of the shortie service, followed by the properties
    of the storage contract, the identifier generator and the statistics
    aggregator.

    Conventions of the embedding.
    - Go's [int64] is a [Z] with the two's-complement wrap-around written
      out ([Int64.wrap]).  [int] is the 64-bit [int] of the platforms the
      service is built for.
    - A Go [string] is a [string]; a [[]byte] is a list of [Z] in [0, 256).
    - A Go [map[string]V] is a [gmap string V]; reading an absent key of a
      [map[string]int64] yields the zero value ([index]).
    - Every method of [LocalStorage] runs with the storage mutex held from
      its first to its last statement, so a method is one atomic state
      transformer on the map of objects.
    - [time.Now()] is an input: each call site that reads the clock takes
      the instant it observes as an argument.
    - A Go [error] is an [option string]; [None] is [nil]. *)

From stdpp Require Import gmap strings pretty list fin_maps.
From Stdlib Require Import ZArith Lia.

Open Scope Z_scope.

(** ** Machine integers *)

Module Int64.
Definition modulus : Z := 2 ^ 64.
Definition min_int : Z := - 2 ^ 63.
Definition max_int : Z := 2 ^ 63 - 1.

(** The value an [int64] holds after an arithmetic result [z]. *)
Definition wrap (z : Z) : Z := (z + 2 ^ 63) mod modulus - 2 ^ 63.

Definition add (x y : Z) : Z := wrap (x + y).

Definition in_range (z : Z) : Prop := min_int <= z <= max_int.
End Int64.

(** ** The parts of package [time] the service uses

    An instant is the number of nanoseconds elapsed since the zero time of
    package [time], January 1 of year 1, 00:00:00 UTC.  A [Duration] is a
    number of nanoseconds. *)

Module time.
Definition Time : Type := Z.
Definition Duration : Type := Z.

Definition Nanosecond : Duration := 1.
Definition Second : Duration := 1000000000 * Nanosecond.
Definition Minute : Duration := 60 * Second.
Definition Hour : Duration := 60 * Minute.

(** Seconds between the zero time and the Unix epoch: 719162 days. *)
Definition unixToInternal : Z := 62135596800.

(** [t.UTC()] changes the location used for display, not the instant. *)
Definition UTC (t : Time) : Time := t.

(** [t.Truncate(d)]: round [t] down to a multiple of [d] since the zero
    time; [t] itself when [d <= 0]. *)
Definition Truncate (t : Time) (d : Duration) : Time :=
  if d <=? 0 then t else t - t mod d.

Definition Add (t : Time) (d : Duration) : Time := t + d.

(** [t.Unix()]: whole seconds elapsed since January 1, 1970 UTC. *)
Definition Unix (t : Time) : Z := t / Second - unixToInternal.

(** The instant whose Unix time is [s] seconds and [ns] nanoseconds. *)
Definition of_unix (s ns : Z) : Time := (s + unixToInternal) * Second + ns.
End time.

(** ** [strconv.Itoa] and the [int] conversion *)

Module strconv.
(** Decimal digits, with a leading minus sign for a negative number. *)
Definition Itoa (i : Z) : string := pretty i.
End strconv.

(** [int(x)] for an [int64] [x]: the identity where [int] has 64 bits. *)
Definition int (x : Z) : Z := x.

(** A Go [error]: [None] is [nil], [Some msg] an error with that text. *)
Definition error : Type := option string.

(** [m[k]] on a [map[string]int64]: the zero value for an absent key. *)
Definition index (m : gmap string Z) (k : string) : Z := default 0 (m !! k).

(** ** storage.go: records *)

Record URLObject : Type := mkURLObject {
  ShortID : string;
  URL : string;
  Version : Z;
  Expiration : Z;
  Usage : gmap string Z
}.

(** [UTCTimestampOfTodayRounded], for the clock reading [now]. *)
Definition UTCTimestampOfTodayRounded (now : time.Time) : time.Time :=
  time.Truncate (time.UTC now) (time.Hour * 24).

(** The expression
    [strconv.Itoa(int(UTCTimestampOfTodayRounded().Unix()))]
    that [GetURL] (both backends) and [GetUsageStats] share textually. *)
Definition todayKey (now : time.Time) : string :=
  strconv.Itoa (int (time.Unix (UTCTimestampOfTodayRounded now))).

(** ** storage.go: the in-memory backend *)

Module LocalStorage.

(** The struct without its mutex.  Each record's [Usage] map is created
    by [SaveURL] and reachable through that record only, so the maps are
    held by value. *)
Record t : Type := mk { Objects : gmap string URLObject }.

(** [&LocalStorage{Objects: map[string]URLObject{}}], as [main] and the
    tests build it. *)
Definition new : t := {| Objects := ∅ |}.

Definition SaveURL (storage : t) (shortID url : string) (expiration : Z)
  : t * error :=
  match Objects storage !! shortID with
  | Some _ => (storage, None)
  | None =>
      ({| Objects :=
            <[shortID := {| ShortID := shortID;
                            URL := url;
                            Version := 0;
                            Expiration := expiration;
                            Usage := ∅ |}]> (Objects storage) |},
       None)
  end.

Definition GetURL (now : time.Time) (storage : t) (shortID : string)
  : t * (string * error) :=
  match Objects storage !! shortID with
  | None => (storage, (""%string, None))
  | Some object =>
      let todayTimestamp :=
        strconv.Itoa (int (time.Unix (UTCTimestampOfTodayRounded now))) in
      let todayUsage := index (Usage object) todayTimestamp in
      let object' :=
        {| ShortID := ShortID object;
           URL := URL object;
           Version := Version object;
           Expiration := Expiration object;
           Usage := <[todayTimestamp := Int64.add todayUsage 1]>
                      (Usage object) |} in
      ({| Objects := <[shortID := object']> (Objects storage) |},
       (URL object', None))
  end.

Definition DeleteURL (storage : t) (shortID : string) : t * error :=
  ({| Objects := delete shortID (Objects storage) |}, None).

Definition GetStatistics (storage : t) (shortID : string)
  : t * (gmap string Z * error) :=
  match Objects storage !! shortID with
  | None => (storage, (∅, None))
  | Some object => (storage, (Usage object, None))
  end.

End LocalStorage.

(** ** Results of Go code that may panic *)

Inductive outcome (A : Type) : Type :=
| Returned (a : A)
| Panicked (msg : string).
Arguments Returned {A} a.
Arguments Panicked {A} msg.

Definition obind {A B : Type} (o : outcome A) (k : A → outcome B) : outcome B :=
  match o with
  | Returned a => k a
  | Panicked msg => Panicked msg
  end.

(** ** Bytes and strings *)

(** [[]byte(s)]: the bytes of a string. *)
Fixpoint bytes_of_string (s : string) : list Z :=
  match s with
  | EmptyString => []
  | String c s' => Z.of_N (Ascii.N_of_ascii c) :: bytes_of_string s'
  end.

(** [s[lo:hi]] on a string; [None] stands for the run-time panic
    "slice bounds out of range". *)
Definition slice_string (s : string) (lo hi : nat) : option string :=
  if decide (lo ≤ hi ∧ hi ≤ String.length s)%nat
  then Some (String.substring lo (hi - lo) s)
  else None.

(** [b[lo:hi]] on a byte slice known to be long enough. *)
Definition slice_bytes (b : list Z) (lo hi : nat) : list Z :=
  take (hi - lo) (drop lo b).

Module strings.
(** [strings.ReplaceAll(s, old, new)] for a non-empty [old]: the
    non-overlapping occurrences of [old], from the left, replaced by
    [new].  [skip] counts the bytes of a matched occurrence that are
    still to be dropped. *)
Fixpoint replace_from (skip : nat) (s old new : string) : string :=
  match s with
  | EmptyString => EmptyString
  | String c s' =>
      match skip with
      | S k => replace_from k s' old new
      | O =>
          if String.prefix old s
          then new +:+ replace_from (String.length old - 1) s' old new
          else String c (replace_from O s' old new)
      end
  end.

Definition ReplaceAll (s old new : string) : string :=
  replace_from O s old new.
End strings.

Module hex.
Definition hextable : string := "0123456789abcdef".

(** [hextable[n]] for a nibble [n]. *)
Definition digit (n : Z) : Ascii.ascii :=
  default (Ascii.ascii_of_nat 48) (String.get (Z.to_nat n) hextable).

(** [hex.Encode]: two lower-case digits per byte, high nibble first. *)
Fixpoint EncodeToString (src : list Z) : string :=
  match src with
  | [] => EmptyString
  | v :: src' =>
      String (digit (Z.shiftr v 4))
        (String (digit (Z.land v 15)) (EncodeToString src'))
  end.
End hex.

(** ** SHA-1 (FIPS 180-4), as [crypto/sha1] computes it *)

Module sha1.
Definition wrap32 (z : Z) : Z := z mod 2 ^ 32.

(** [bits.RotateLeft32(x, n)] for [0 < n < 32]. *)
Definition rotl (n x : Z) : Z :=
  wrap32 (Z.lor (Z.shiftl x n) (Z.shiftr x (32 - n))).

Definition not32 (x : Z) : Z := Z.lxor x 4294967295.

Definition be32 (b0 b1 b2 b3 : Z) : Z :=
  Z.lor (Z.lor (Z.shiftl b0 24) (Z.shiftl b1 16)) (Z.lor (Z.shiftl b2 8) b3).

Fixpoint words (p : list Z) : list Z :=
  match p with
  | b0 :: b1 :: b2 :: b3 :: p' => be32 b0 b1 b2 b3 :: words p'
  | _ => []
  end.

(** The message schedule, most recent word first. *)
Fixpoint extend (n : nat) (rev_w : list Z) : list Z :=
  match n with
  | O => rev_w
  | S n' =>
      let x := Z.lxor (Z.lxor (nth 2 rev_w 0) (nth 7 rev_w 0))
                      (Z.lxor (nth 13 rev_w 0) (nth 15 rev_w 0)) in
      extend n' (rotl 1 x :: rev_w)
  end.

Definition schedule (chunk : list Z) : list Z :=
  rev (extend 64 (rev (words chunk))).

Definition f (i : nat) (b c d : Z) : Z :=
  if (i <? 20)%nat then Z.lor (Z.land b c) (Z.land (not32 b) d)
  else if (i <? 40)%nat then Z.lxor b (Z.lxor c d)
  else if (i <? 60)%nat then Z.lor (Z.land (Z.lor b c) d) (Z.land b c)
  else Z.lxor b (Z.lxor c d).

Definition K (i : nat) : Z :=
  if (i <? 20)%nat then 0x5A827999
  else if (i <? 40)%nat then 0x6ED9EBA1
  else if (i <? 60)%nat then 0x8F1BBCDC
  else 0xCA62C1D6.

Definition state : Type := Z * Z * Z * Z * Z.

Fixpoint rounds (i : nat) (ws : list Z) (st : state) : state :=
  match ws with
  | [] => st
  | w :: ws' =>
      let '(a, b, c, d, e) := st in
      let t := wrap32 (rotl 5 a + f i b c d + e + w + K i) in
      rounds (S i) ws' (t, a, rotl 30 b, c, d)
  end.

Definition block (h : state) (chunk : list Z) : state :=
  let '(h0, h1, h2, h3, h4) := h in
  let '(a, b, c, d, e) := rounds 0 (schedule chunk) h in
  (wrap32 (h0 + a), wrap32 (h1 + b), wrap32 (h2 + c),
   wrap32 (h3 + d), wrap32 (h4 + e)).

Fixpoint blocks (n : nat) (h : state) (p : list Z) : state :=
  match n with
  | O => h
  | S n' => blocks n' (block h (take 64 p)) (drop 64 p)
  end.

Definition init : state :=
  (0x67452301, 0xEFCDAB89, 0x98BADCFE, 0x10325476, 0xC3D2E1F0).

Definition be_bytes (width : nat) (x : Z) : list Z :=
  map (λ k : nat, Z.land (Z.shiftr x (8 * Z.of_nat k)) 255)
      (rev (seq 0 width)).

(** The padding: a one bit, zero bits up to 56 bytes modulo 64, and the
    length of the message in bits as a big-endian [uint64]. *)
Definition padding (len : Z) : list Z :=
  let t := if len mod 64 <? 56 then 56 - len mod 64
           else 64 + 56 - len mod 64 in
  128 :: repeat 0 (Z.to_nat t - 1) ++ be_bytes 8 ((len * 8) mod 2 ^ 64).

(** [sha1.Sum]: the 20 bytes of the digest. *)
Definition Sum (data : list Z) : list Z :=
  let p := data ++ padding (Z.of_nat (length data)) in
  let '(h0, h1, h2, h3, h4) := blocks (length p / 64) init p in
  be_bytes 4 h0 ++ be_bytes 4 h1 ++ be_bytes 4 h2
    ++ be_bytes 4 h3 ++ be_bytes 4 h4.
End sha1.

(** ** github.com/google/uuid: name-based identifiers *)

Module uuid.
(** A [UUID] is a [[16]byte]. *)
Definition UUID : Type := list Z.

(** 6ba7b811-9dad-11d1-80b4-00c04fd430c8 *)
Definition NameSpaceURL : UUID :=
  [0x6b; 0xa7; 0xb8; 0x11; 0x9d; 0xad; 0x11; 0xd1;
   0x80; 0xb4; 0x00; 0xc0; 0x4f; 0xd4; 0x30; 0xc8].

(** [a[i]] of a byte array. *)
Definition at_ (u : UUID) (i : nat) : Z := default 0 (u !! i).

(** [NewHash]: hash the name space and the name, copy the first 16
    bytes of the digest into a zeroed array, then set the version and
    the variant. *)
Definition NewHash (sum : list Z → list Z) (space : UUID) (data : list Z)
    (version : Z) : UUID :=
  let s := sum (space ++ data) in
  let u := take 16 (s ++ repeat 0 16%nat) in
  let u := <[6%nat := Z.lor (Z.land (at_ u 6) 0x0f)
                            (Z.land (Z.shiftl (Z.land version 0xf) 4) 255)]> u in
  let u := <[8%nat := Z.lor (Z.land (at_ u 8) 0x3f) 0x80]> u in
  u.

Definition NewSHA1 (space : UUID) (data : list Z) : UUID :=
  NewHash sha1.Sum space data 5.

(** [UUID.String]: xxxxxxxx-xxxx-xxxx-xxxx-xxxxxxxxxxxx. *)
Definition String (u : UUID) : string :=
  hex.EncodeToString (slice_bytes u 0 4) +:+ "-" +:+
  hex.EncodeToString (slice_bytes u 4 6) +:+ "-" +:+
  hex.EncodeToString (slice_bytes u 6 8) +:+ "-" +:+
  hex.EncodeToString (slice_bytes u 8 10) +:+ "-" +:+
  hex.EncodeToString (slice_bytes u 10 16).
End uuid.

(** ** storage.go: the DynamoDB backend

    The table behind the client is a map from the key attribute [shortID]
    to the stored item.  [dynamodbattribute.MarshalMap] and [UnmarshalMap]
    are inverse to each other on [URLObject] values (an absent or empty
    [usage] attribute is read back as the empty map by [getObject]), so an
    item is held as the [URLObject] it encodes. *)

(** The errors of the client, package [awserr]: a code, a message, the
    extra line of a failed request ("status code: ..., request id: ...",
    empty when there is none) and the text of the error that caused it. *)
Module awserr.
Record t : Type := New {
  Code : string;
  Message : string;
  Extra : string;
  OrigErr : option string
}.

Definition LF : string := String (Ascii.ascii_of_nat 10) EmptyString.
Definition TAB : string := String (Ascii.ascii_of_nat 9) EmptyString.

(** [SprintError]: "code: message", then the extra line behind a line
    feed and a tab, then "caused by: " and the cause on a line of its
    own. *)
Definition SprintError (code message extra : string)
    (origErr : option string) : string :=
  let msg := code +:+ ": " +:+ message in
  let msg := if decide (extra = ""%string) then msg
             else msg +:+ LF +:+ TAB +:+ extra in
  match origErr with
  | Some cause => msg +:+ LF +:+ "caused by: " +:+ cause
  | None => msg
  end.

(** [err.Error()]. *)
Definition Error (err : t) : string :=
  SprintError (Code err) (Message err) (Extra err) (OrigErr err).
End awserr.

Module dynamodb.
Definition ErrCodeConditionalCheckFailedException : string :=
  "ConditionalCheckFailedException".

(** What the service does with one request: it serves it, or the request
    fails with an error (no connection, throttling, a cancelled context,
    ...) and the table is left as it was. *)
Inductive answer : Type :=
| Serves
| Fails (err : awserr.t).

(** The error of a served put whose condition does not hold.  Its callers
    look at its code only. *)
Definition conditionalCheckFailed : awserr.t :=
  {| awserr.Code := ErrCodeConditionalCheckFailedException;
     awserr.Message := "The conditional request failed";
     awserr.Extra := "";
     awserr.OrigErr := None |}.

(** [PutItemWithContext]; [not_exists] tells whether the request carries
    the condition [attribute_not_exists(#shortID)]. *)
Definition PutItemWithContext (a : answer) (table : gmap string URLObject)
    (item : URLObject) (not_exists : bool)
  : gmap string URLObject * option awserr.t :=
  match a with
  | Fails err => (table, Some err)
  | Serves =>
      match table !! ShortID item with
      | Some _ =>
          if not_exists
          then (table, Some conditionalCheckFailed)
          else (<[ShortID item := item]> table, None)
      | None => (<[ShortID item := item]> table, None)
      end
  end.

(** [GetItemWithContext]: [out.Item], which is [nil] for a missing key,
    and the error. *)
Definition GetItemWithContext (a : answer) (table : gmap string URLObject)
    (key : string) : option URLObject * option awserr.t :=
  match a with
  | Fails err => (None, Some err)
  | Serves => (table !! key, None)
  end.

Definition DeleteItemWithContext (a : answer)
    (table : gmap string URLObject) (key : string)
  : gmap string URLObject * option awserr.t :=
  match a with
  | Fails err => (table, Some err)
  | Serves => (delete key table, None)
  end.
End dynamodb.

Module DynamoStorage.

(** The table the client talks to, and the goroutines [GetURL] has
    started that have not run yet, each with the object it captured. *)
Record t : Type := mk {
  dynamo : gmap string URLObject;
  spawned : list URLObject
}.

Definition new : t := {| dynamo := ∅; spawned := [] |}.

Definition SaveURL (a : dynamodb.answer) (storage : t)
    (shortID url : string) (expiration : Z) : t * error :=
  let object := {| ShortID := shortID;
                   URL := url;
                   Version := 0;
                   Expiration := expiration;
                   Usage := ∅ |} in
  let '(table, err) :=
    dynamodb.PutItemWithContext a (dynamo storage) object true in
  let storage' := {| dynamo := table; spawned := spawned storage |} in
  match err with
  | Some err =>
      if decide (awserr.Code err
                 = dynamodb.ErrCodeConditionalCheckFailedException)
      then (storage', None)
      else (storage', Some ("failed to save a url: " +:+ awserr.Error err))
  | None => (storage', None)
  end.

(** [getObject]: the object pointer ([None] is [nil]) and the error. *)
Definition getObject (a : dynamodb.answer) (storage : t) (shortID : string)
  : option URLObject * error :=
  let '(item, err) :=
    dynamodb.GetItemWithContext a (dynamo storage) shortID in
  match err with
  | Some err =>
      (None, Some ("failed to read a shortID: " +:+ awserr.Error err))
  | None =>
      match item with
      | None => (None, None)
      | Some object => (Some object, None)
      end
  end.

(** [GetURL] returns as soon as the goroutine is started; the goroutine
    is recorded in [spawned]. *)
Definition GetURL (a : dynamodb.answer) (storage : t) (shortID : string)
  : t * (string * error) :=
  match getObject a storage shortID with
  | (_, Some err) => (storage, (""%string, Some err))
  | (None, None) => (storage, (""%string, None))
  | (Some object, None) =>
      ({| dynamo := dynamo storage;
          spawned := spawned storage ++ [object] |},
       (URL object, None))
  end.

(** The body of the goroutine of [GetURL], run at a later moment when
    the clock reads [now] and the service answers [a]: an unconditional
    put of the captured object with today's bucket incremented.  The
    second component is what it logs. *)
Definition increment (now : time.Time) (a : dynamodb.answer)
    (table : gmap string URLObject) (object : URLObject)
  : gmap string URLObject * list string :=
  let todayTimestamp :=
    strconv.Itoa (int (time.Unix (UTCTimestampOfTodayRounded now))) in
  let todayUsage := index (Usage object) todayTimestamp in
  let object' :=
    {| ShortID := ShortID object;
       URL := URL object;
       Version := Version object;
       Expiration := Expiration object;
       Usage := <[todayTimestamp := Int64.add todayUsage 1]>
                  (Usage object) |} in
  let '(table', err) :=
    dynamodb.PutItemWithContext a table object' false in
  match err with
  | Some err => (table', ["failed to increment usage: " +:+ awserr.Error err])
  | None => (table', [])
  end.

(** One scheduling step: the oldest goroutine not yet run runs. *)
Definition run_spawned (now : time.Time) (a : dynamodb.answer)
    (storage : t) : t :=
  match spawned storage with
  | [] => storage
  | object :: rest =>
      {| dynamo := fst (increment now a (dynamo storage) object);
         spawned := rest |}
  end.

Definition DeleteURL (a : dynamodb.answer) (storage : t) (shortID : string)
  : t * error :=
  let '(table, err) :=
    dynamodb.DeleteItemWithContext a (dynamo storage) shortID in
  let storage' := {| dynamo := table; spawned := spawned storage |} in
  match err with
  | Some err =>
      (storage',
       Some ("failed to delete a url object: " +:+ awserr.Error err))
  | None => (storage', None)
  end.

(** [GetStatistics] reads [object.Usage] without looking at [object]:
    for the [nil] pointer [getObject] returns on a missing key, the
    field access panics. *)
Definition GetStatistics (a : dynamodb.answer) (storage : t)
    (shortID : string) : outcome (t * (gmap string Z * error)) :=
  match getObject a storage shortID with
  | (_, Some err) => Returned (storage, (∅, Some err))
  | (None, None) =>
      Panicked "runtime error: invalid memory address or nil pointer dereference"
  | (Some object, None) => Returned (storage, (Usage object, None))
  end.

End DynamoStorage.

(** ** api.go: the storage interface and the handlers *)

(** What a call into a backend observes of the outside: the clock and the
    answer of the remote service. *)
Record world : Type := mkWorld {
  now : time.Time;
  aws : dynamodb.answer
}.

Class urlStorage (S : Type) : Type := {
  SaveURL : world → S → string → string → Z → outcome (S * error);
  GetURL : world → S → string → outcome (S * (string * error));
  DeleteURL : world → S → string → outcome (S * error);
  GetStatistics : world → S → string → outcome (S * (gmap string Z * error))
}.

#[export] Instance LocalStorage_urlStorage : urlStorage LocalStorage.t := {
  SaveURL _ s shortID url expiration :=
    Returned (LocalStorage.SaveURL s shortID url expiration);
  GetURL w s shortID := Returned (LocalStorage.GetURL (now w) s shortID);
  DeleteURL _ s shortID := Returned (LocalStorage.DeleteURL s shortID);
  GetStatistics _ s shortID := Returned (LocalStorage.GetStatistics s shortID)
}.

#[export] Instance DynamoStorage_urlStorage : urlStorage DynamoStorage.t := {
  SaveURL w s shortID url expiration :=
    Returned (DynamoStorage.SaveURL (aws w) s shortID url expiration);
  GetURL w s shortID := Returned (DynamoStorage.GetURL (aws w) s shortID);
  DeleteURL w s shortID := Returned (DynamoStorage.DeleteURL (aws w) s shortID);
  GetStatistics w s shortID := DynamoStorage.GetStatistics (aws w) s shortID
}.

(** The statuses of [net/http] the handlers send. *)
Module http.
Definition StatusOK : Z := 200.
Definition StatusTemporaryRedirect : Z := 307.
Definition StatusBadRequest : Z := 400.
Definition StatusNotFound : Z := 404.
Definition StatusInternalServerError : Z := 500.
End http.

(** What a handler writes to its [gin.Context]. *)
Inductive body : Type :=
| NoBody
| Text (s : string)
| JSONError (msg : string)
| JSONShortUrl (shortUrl : string)
| JSONStats (lastDay lastWeek allTime : Z).

Record Response : Type := mkResponse {
  Status : Z;
  Location : option string;
  Body : body
}.

(** What [c.BindJSON(&body)] yields in [CreateURL]. *)
Inductive bound : Type :=
| BindOk (url : string) (expiration : Z)
| BindErr (msg : string).

(** The identifier [CreateURL] derives from the URL of the request:
    [strings.ReplaceAll(guid.String(), "-", "")[0:10]]; [None] is the
    panic of the slice expression. *)
Definition shortIDOf (url : string) : option string :=
  let data := bytes_of_string url in
  let guid := uuid.NewSHA1 uuid.NameSpaceURL data in
  slice_string (strings.ReplaceAll (uuid.String guid) "-" "") 0 10.

(** The loop [for i := 0; i < 6; i++] of [GetUsageStats], with [n]
    iterations left. *)
Fixpoint weekLoop (n : nat) (usage : gmap string Z)
    (weekUsage : Z) (dayTimestamp : time.Time) : Z :=
  match n with
  | O => weekUsage
  | S n' =>
      let dayTimestamp := time.Add dayTimestamp (- time.Hour * 24) in
      let weekUsage :=
        Int64.add weekUsage
          (index usage (strconv.Itoa (int (time.Unix dayTimestamp)))) in
      weekLoop n' usage weekUsage dayTimestamp
  end.

(** The roll-up of [GetUsageStats] from the usage mapping.  The handler
    reads the clock twice: [now1] is the reading kept in [todayTimestamp],
    [now2] the reading that selects today's bucket. *)
Definition aggregate (now1 now2 : time.Time) (usage : gmap string Z)
  : Z * Z * Z :=
  let todayTimestamp := UTCTimestampOfTodayRounded now1 in
  let todayUsage :=
    index usage
      (strconv.Itoa (int (time.Unix (UTCTimestampOfTodayRounded now2)))) in
  let weekUsage := weekLoop 6 usage todayUsage todayTimestamp in
  let totalUsage :=
    map_fold (λ _ dayUsage totalUsage, Int64.add totalUsage dayUsage) 0 usage in
  (todayUsage, weekUsage, totalUsage).

Module shortieAPI.
Section handlers.
Context {S : Type} `{!urlStorage S}.

Definition CreateURL (w : world) (storage : S) (b : bound)
  : outcome (S * Response) :=
  match b with
  | BindErr msg =>
      Returned (storage, mkResponse http.StatusBadRequest None (JSONError msg))
  | BindOk url expiration =>
      match shortIDOf url with
      | None => Panicked "runtime error: slice bounds out of range"
      | Some shortID =>
          obind (SaveURL w storage shortID url expiration) (λ r,
            match r with
            | (storage', Some err) =>
                Returned (storage',
                          mkResponse http.StatusInternalServerError None
                                     (JSONError err))
            | (storage', None) =>
                Returned (storage',
                          mkResponse http.StatusOK None
                            (JSONShortUrl
                               ("http://localhost:8421/shortie/" +:+ shortID)))
            end)
      end
  end.

Definition HandleRedirect (w : world) (storage : S) (shortID : string)
  : outcome (S * Response) :=
  obind (GetURL w storage shortID) (λ r,
    match r with
    | (storage', (_, Some err)) =>
        Returned (storage',
                  mkResponse http.StatusInternalServerError None
                             (JSONError err))
    | (storage', (url, None)) =>
        if decide (url = ""%string)
        then Returned (storage',
                       mkResponse http.StatusNotFound None (Text "Not Found"))
        else Returned (storage',
                       mkResponse http.StatusTemporaryRedirect (Some url)
                                  NoBody)
    end).

Definition DeleteURL (w : world) (storage : S) (shortID : string)
  : outcome (S * Response) :=
  obind (DeleteURL w storage shortID) (λ r,
    match r with
    | (storage', Some err) =>
        Returned (storage',
                  mkResponse http.StatusInternalServerError None
                             (JSONError err))
    | (storage', None) =>
        Returned (storage', mkResponse http.StatusOK None NoBody)
    end).

Definition GetUsageStats (w : world) (now1 now2 : time.Time) (storage : S)
    (shortID : string) : outcome (S * Response) :=
  obind (GetStatistics w storage shortID) (λ r,
    match r with
    | (storage', (_, Some err)) =>
        Returned (storage',
                  mkResponse http.StatusInternalServerError None
                             (JSONError err))
    | (storage', (usage, None)) =>
        let '(todayUsage, weekUsage, totalUsage) :=
          aggregate now1 now2 usage in
        Returned (storage',
                  mkResponse http.StatusOK None
                             (JSONStats todayUsage weekUsage totalUsage))
    end).

(** The recovery middleware of [gin.Default()]: a panicking handler is
    answered with status 500. *)
Definition recovery (storage : S) (o : outcome (S * Response))
  : S * Response :=
  match o with
  | Returned r => r
  | Panicked _ =>
      (storage, mkResponse http.StatusInternalServerError None NoBody)
  end.
End handlers.
End shortieAPI.

(** ** Vocabulary of the properties *)

Definition sumZ (l : list Z) : Z := foldr Z.add 0 l.

(** Seconds in a day of Unix time. *)
Definition secondsPerDay : Z := 86400.

(** The day-bucket key in the words of the specification: the current
    time truncated to UTC midnight, its unix-seconds value, as a decimal
    string.  UTC midnight of the day of a Unix time [u] is the largest
    multiple of 86400 that does not exceed [u]. *)
Definition dayBucketKey_spec (now : time.Time) : string :=
  pretty (secondsPerDay * (time.Unix now / secondsPerDay)).

(** The key of the bucket of the day [d] days before the day of [now]. *)
Definition bucketDaysAgo (now : time.Time) (d : Z) : string :=
  pretty (secondsPerDay * (time.Unix now / secondsPerDay) - secondsPerDay * d).

(** Two clock readings of the same UTC day. *)
Definition sameDay (t1 t2 : time.Time) : Prop :=
  UTCTimestampOfTodayRounded t1 = UTCTimestampOfTodayRounded t2.

(** The seven buckets of the trailing week, today's first. *)
Definition weekBuckets (now : time.Time) (usage : gmap string Z) : list Z :=
  map (λ d : nat, index usage (bucketDaysAgo now (Z.of_nat d))) (seq 0 7).

(** Every bucket of the mapping, in the order of [map_to_list]. *)
Definition allBuckets (usage : gmap string Z) : list Z :=
  (map_to_list usage).*2.

(** A decimal digit or one of the letters a to f. *)
Definition isLowerHex (c : Ascii.ascii) : bool :=
  let n := Ascii.nat_of_ascii c in
  ((48 <=? n) && (n <=? 57) || (97 <=? n) && (n <=? 102))%nat.

Fixpoint allLowerHex (s : string) : bool :=
  match s with
  | EmptyString => true
  | String c s' => isLowerHex c && allLowerHex s'
  end.

(** The record a create call stores. *)
Definition created (shortID url : string) (expiration : Z) : URLObject :=
  {| ShortID := shortID; URL := url; Version := 0;
     Expiration := expiration; Usage := ∅ |}.

(** A record after one more visit on the day of [now]: the bucket of that
    day, named as the specification names it, one higher in [int64]. *)
Definition visited (now : time.Time) (object : URLObject) : URLObject :=
  {| ShortID := ShortID object;
     URL := URL object;
     Version := Version object;
     Expiration := Expiration object;
     Usage := <[dayBucketKey_spec now :=
                  Int64.add (index (Usage object) (dayBucketKey_spec now)) 1]>
                (Usage object) |}.

(** The calls of the storage contract on the in-memory backend. *)
Inductive call : Type :=
| Save (shortID url : string) (expiration : Z)
| Get (now : time.Time) (shortID : string)
| Delete (shortID : string)
| Statistics (shortID : string).

(** The state a call leaves behind. *)
Definition after (c : call) (s : LocalStorage.t) : LocalStorage.t :=
  match c with
  | Save shortID url expiration =>
      fst (LocalStorage.SaveURL s shortID url expiration)
  | Get now shortID => fst (LocalStorage.GetURL now s shortID)
  | Delete shortID => fst (LocalStorage.DeleteURL s shortID)
  | Statistics shortID => fst (LocalStorage.GetStatistics s shortID)
  end.

Definition isDelete (c : call) : bool :=
  match c with Delete _ => true | _ => false end.

(** The states reached from the empty storage by [n] calls. *)
Inductive reachable : nat → LocalStorage.t → Prop :=
| reachable_new : reachable 0 LocalStorage.new
| reachable_call n s c : reachable n s → reachable (S n) (after c s).

(** Every bucket of every record of [s] is still there in [s'], with a
    count at least as large. *)
Definition usageGrows (s s' : LocalStorage.t) : Prop :=
  ∀ shortID object key count,
    LocalStorage.Objects s !! shortID = Some object →
    Usage object !! key = Some count →
    ∃ object' count',
      LocalStorage.Objects s' !! shortID = Some object' ∧
      Usage object' !! key = Some count' ∧
      count <= count'.

(** ** storage.go: [InitializeTable]

    The tables of the service are the set of their names.  A served
    [CreateTable] for a name that is taken fails with
    [ResourceInUseException].  Every error of the client is an
    [awserr.Error], so the type assertion of [InitializeTable]
    succeeds. *)

Module dynamodbTables.
Definition ErrCodeTableAlreadyExistsException : string :=
  "TableAlreadyExistsException".
Definition ErrCodeResourceInUseException : string :=
  "ResourceInUseException".

(** The error of a served [CreateTable] for a name that is taken.  Its
    caller looks at its code only. *)
Definition tableInUse (TableName : string) : awserr.t :=
  {| awserr.Code := ErrCodeResourceInUseException;
     awserr.Message := "Table already exists: " +:+ TableName;
     awserr.Extra := "";
     awserr.OrigErr := None |}.

Definition CreateTable (a : dynamodb.answer) (tables : gset string)
    (TableName : string) : gset string * option awserr.t :=
  match a with
  | dynamodb.Fails err => (tables, Some err)
  | dynamodb.Serves =>
      if decide (TableName ∈ tables)
      then (tables, Some (tableInUse TableName))
      else ({[TableName]} ∪ tables, None)
  end.
End dynamodbTables.

Definition tableName : string := "shortie-urls".

Definition InitializeTable (a : dynamodb.answer) (tables : gset string)
  : gset string * error :=
  let '(tables', err) := dynamodbTables.CreateTable a tables tableName in
  match err with
  | Some err =>
      if decide (awserr.Code err
                 = dynamodbTables.ErrCodeTableAlreadyExistsException
                 ∨ awserr.Code err
                   = dynamodbTables.ErrCodeResourceInUseException)
      then (tables', None)
      else (tables', Some ("failed to create the table: " +:+ awserr.Error err))
  | None => (tables', None)
  end.

(** ** Vocabulary of the further properties *)

(** The UTC day of an instant, in whole days since the Unix epoch. *)
Definition dayOf (t : time.Time) : Z := time.Unix t / secondsPerDay.

(** The key of the bucket of day [D]. *)
Definition dayKey (D : Z) : string := pretty (secondsPerDay * D).

(** The identifier a call is about. *)
Definition target (c : call) : string :=
  match c with
  | Save shortID _ _ => shortID
  | Get _ shortID => shortID
  | Delete shortID => shortID
  | Statistics shortID => shortID
  end.

(** One [GetURL] of [shortID] for each clock reading of [ts], in order. *)
Fixpoint visits (ts : list time.Time) (s : LocalStorage.t) (shortID : string)
  : LocalStorage.t :=
  match ts with
  | [] => s
  | t :: ts' => visits ts' (LocalStorage.GetURL t s shortID).1 shortID
  end.

(** A record after one visit at each of [ts], in order. *)
Definition visitedAll (ts : list time.Time) (object : URLObject) : URLObject :=
  foldl (λ o t, visited t o) object ts.

(** How many of the readings [ts] fall on day [D]. *)
Definition visitsOn (D : Z) (ts : list time.Time) : Z :=
  Z.of_nat (length (filter (λ t, dayOf t = D) ts)).

(** How many of the readings [ts] fall on the days [lo] to [hi]. *)
Definition visitsBetween (lo hi : Z) (ts : list time.Time) : Z :=
  Z.of_nat (length (filter (λ t, lo <= dayOf t <= hi) ts)).

(** The steps of the DynamoDB backend: the four calls, each with the
    answer of the service, and the run of the oldest pending goroutine. *)
Inductive dcall : Type :=
| DSave (a : dynamodb.answer) (shortID url : string) (expiration : Z)
| DGet (a : dynamodb.answer) (shortID : string)
| DDelete (a : dynamodb.answer) (shortID : string)
| DStatistics (a : dynamodb.answer) (shortID : string)
| DRun (now : time.Time) (a : dynamodb.answer).

Definition dafter (c : dcall) (st : DynamoStorage.t) : DynamoStorage.t :=
  match c with
  | DSave a shortID url expiration =>
      (DynamoStorage.SaveURL a st shortID url expiration).1
  | DGet a shortID => (DynamoStorage.GetURL a st shortID).1
  | DDelete a shortID => (DynamoStorage.DeleteURL a st shortID).1
  | DStatistics a shortID =>
      match DynamoStorage.GetStatistics a st shortID with
      | Returned r => r.1
      | Panicked _ => st
      end
  | DRun now a => DynamoStorage.run_spawned now a st
  end.

(** The states of the DynamoDB backend reached from the empty table. *)
Inductive dreachable : DynamoStorage.t → Prop :=
| dreachable_new : dreachable DynamoStorage.new
| dreachable_step st c : dreachable st → dreachable (dafter c st).

(** An item sits under its own [shortID], with the version [SaveURL]
    gives it. *)
Definition wellKeyed (table : gmap string URLObject) : Prop :=
  ∀ key item, table !! key = Some item → ShortID item = key ∧ Version item = 0.

(** An item as the calls write it: version 0 and day keys only. *)
Definition goodItem (item : URLObject) : Prop :=
  Version item = 0
  ∧ ∀ key count, Usage item !! key = Some count → ∃ D, key = dayKey D.

(** A byte. *)
Definition isByte (v : Z) : Prop := 0 <= v < 256.

(** * Properties *)

(** ** Arithmetic of [int64] *)

Lemma wrap_in_range z : Int64.in_range z → Int64.wrap z = z.
Proof.
  unfold Int64.in_range, Int64.min_int, Int64.max_int, Int64.wrap, Int64.modulus.
  intros Hz. rewrite Z.mod_small; lia.
Qed.

Lemma wrap_range z : Int64.in_range (Int64.wrap z).
Proof.
  unfold Int64.in_range, Int64.min_int, Int64.max_int, Int64.wrap, Int64.modulus.
  pose proof (Z.mod_pos_bound (z + 2 ^ 63) (2 ^ 64)). lia.
Qed.

Lemma wrap_add_l a b : Int64.wrap (Int64.wrap a + b) = Int64.wrap (a + b).
Proof.
  unfold Int64.wrap, Int64.modulus.
  f_equal.
  replace ((a + 2 ^ 63) mod 2 ^ 64 - 2 ^ 63 + b + 2 ^ 63)
    with ((a + 2 ^ 63) mod 2 ^ 64 + b) by lia.
  rewrite Zplus_mod_idemp_l. f_equal. lia.
Qed.

Lemma wrap_add_r a b : Int64.wrap (a + Int64.wrap b) = Int64.wrap (a + b).
Proof. rewrite (Z.add_comm a), wrap_add_l. f_equal. lia. Qed.

Lemma wrap_idemp a : Int64.wrap (Int64.wrap a) = Int64.wrap a.
Proof. apply wrap_in_range, wrap_range. Qed.

Lemma add_small x y :
  Int64.in_range (x + y) → Int64.add x y = x + y.
Proof. apply wrap_in_range. Qed.

(** ** Day arithmetic *)

Lemma day_is_seconds : time.Hour * 24 = secondsPerDay * time.Second.
Proof. reflexivity. Qed.

(** Midnight since the zero time is midnight since the Unix epoch: the
    epoch is a whole number of days after the zero time. *)
Lemma Unix_today now :
  time.Unix (UTCTimestampOfTodayRounded now)
  = secondsPerDay * (time.Unix now / secondsPerDay).
Proof.
  unfold UTCTimestampOfTodayRounded, time.Truncate, time.UTC, time.Unix.
  rewrite day_is_seconds.
  change (secondsPerDay * time.Second <=? 0) with false. cbv iota.
  change time.unixToInternal with (719162 * secondsPerDay).
  change secondsPerDay with 86400. change time.Second with 1000000000.
  pose proof (Z.div_mod now (86400 * 1000000000) ltac:(lia)) as Hdm.
  assert (Hq : now / 1000000000 / 86400 = now / (86400 * 1000000000)).
  { rewrite Z.div_div by lia. f_equal. }
  set (q := now / (86400 * 1000000000)) in *.
  set (r := now mod (86400 * 1000000000)) in *.
  replace (now - r) with (86400 * q * 1000000000) by lia.
  rewrite Z.div_mul by lia.
  replace (now / 1000000000 - 719162 * 86400)
    with (now / 1000000000 + -719162 * 86400) by lia.
  rewrite Z.div_add by lia. lia.
Qed.

(** One day earlier is 86400 Unix seconds earlier. *)
Lemma Unix_day_before t :
  time.Unix (time.Add t (- time.Hour * 24)) = time.Unix t - secondsPerDay.
Proof.
  unfold time.Add, time.Unix.
  change (- time.Hour * 24) with (-86400 * time.Second).
  change time.Second with 1000000000. change secondsPerDay with 86400.
  rewrite Z.div_add by lia. lia.
Qed.

Lemma todayKey_spec now : todayKey now = dayBucketKey_spec now.
Proof.
  unfold todayKey, dayBucketKey_spec, strconv.Itoa, int.
  by rewrite Unix_today.
Qed.

Lemma bucketDaysAgo_0 now : bucketDaysAgo now 0 = dayBucketKey_spec now.
Proof.
  unfold bucketDaysAgo, dayBucketKey_spec. f_equal. lia.
Qed.

Lemma bucketDaysAgo_inj now d1 d2 :
  bucketDaysAgo now d1 = bucketDaysAgo now d2 → d1 = d2.
Proof.
  unfold bucketDaysAgo, secondsPerDay. intros H.
  apply (inj pretty) in H. lia.
Qed.

Lemma sameDay_key t1 t2 : sameDay t1 t2 → todayKey t1 = todayKey t2.
Proof. unfold sameDay, todayKey. by intros ->. Qed.

Lemma sameDay_bucket t1 t2 d :
  sameDay t1 t2 → bucketDaysAgo t1 d = bucketDaysAgo t2 d.
Proof.
  unfold sameDay, bucketDaysAgo. intros H.
  by rewrite <- !Unix_today, H.
Qed.

(** ** The statistics aggregator *)

Lemma weekLoop_range n usage acc ts :
  Int64.in_range acc → Int64.in_range (weekLoop n usage acc ts).
Proof.
  revert acc ts. induction n as [|n IH]; intros acc ts Hacc; simpl; [done|].
  apply IH, wrap_range.
Qed.

Lemma weekLoop_S_range n usage acc ts :
  Int64.in_range (weekLoop (S n) usage acc ts).
Proof. cbn [weekLoop]. apply weekLoop_range, wrap_range. Qed.

(** The loop adds the buckets of the [n] days before [ts], in [int64]. *)
Lemma weekLoop_sum n usage acc ts :
  Int64.wrap (weekLoop n usage acc ts)
  = Int64.wrap
      (acc + sumZ (map (λ j : nat,
                      index usage
                        (pretty (time.Unix ts - secondsPerDay * Z.of_nat j)))
                      (seq 1 n))).
Proof.
  revert acc ts. induction n as [|n IH]; intros acc ts.
  - simpl. f_equal. lia.
  - cbn [weekLoop]. rewrite IH. unfold Int64.add.
    rewrite wrap_add_l. f_equal.
    cbn [seq map sumZ foldr]. fold (sumZ).
    rewrite <- (seq_shift n 1), map_map.
    unfold strconv.Itoa, int. rewrite Unix_day_before.
    replace (time.Unix ts - secondsPerDay * Z.of_nat 1)
      with (time.Unix ts - secondsPerDay) by lia.
    rewrite <- Z.add_assoc. do 3 f_equal.
    apply map_ext. intros j. do 2 f_equal. lia.
Qed.

Lemma aggregate_lastDay now1 now2 usage :
  (aggregate now1 now2 usage).1.1 = index usage (dayBucketKey_spec now2).
Proof.
  unfold aggregate. cbn [fst]. by rewrite <- todayKey_spec.
Qed.

Lemma aggregate_lastWeek now1 now2 usage :
  sameDay now1 now2 →
  (aggregate now1 now2 usage).1.2
  = Int64.wrap (sumZ (weekBuckets now2 usage)).
Proof.
  intros Hday. unfold aggregate. cbn [fst snd].
  rewrite <- (wrap_in_range (weekLoop 6 _ _ _))
    by apply (weekLoop_S_range 5).
  rewrite weekLoop_sum. f_equal.
  unfold weekBuckets. cbn [seq map sumZ foldr].
  rewrite Hday. unfold strconv.Itoa, int. rewrite Unix_today.
  unfold bucketDaysAgo. repeat (f_equal; try lia).
Qed.

Lemma sumZ_perm l1 l2 : l1 ≡ₚ l2 → sumZ l1 = sumZ l2.
Proof.
  induction 1 as [|x l l' _ IH|x y l|l l' l'' _ IH1 _ IH2]; simpl; lia.
Qed.

Lemma allBuckets_insert (usage : gmap string Z) key count :
  usage !! key = None →
  sumZ (allBuckets (<[key := count]> usage))
  = count + sumZ (allBuckets usage).
Proof.
  intros Hfresh. unfold allBuckets.
  rewrite (sumZ_perm _ (((key, count) :: map_to_list usage).*2)); [done|].
  by rewrite map_to_list_insert.
Qed.

Lemma allBuckets_empty : allBuckets ∅ = [].
Proof. unfold allBuckets. by rewrite map_to_list_empty. Qed.

(** The [range] loop adds every bucket, in [int64]; the order in which
    the map is traversed does not matter. *)
Lemma aggregate_allTime now1 now2 usage :
  (aggregate now1 now2 usage).2 = Int64.wrap (sumZ (allBuckets usage)).
Proof.
  unfold aggregate, allBuckets. cbn [snd].
  rewrite map_fold_foldr.
  induction (map_to_list usage) as [|[key count] l IH]; [done|].
  cbn [foldr uncurry fmap list_fmap sumZ snd]. fold sumZ in *.
  cbn [foldr uncurry] in IH. rewrite IH. unfold Int64.add.
  rewrite wrap_add_l. f_equal. unfold sumZ. lia.
Qed.

Lemma index_insert (usage : gmap string Z) key count key' :
  index (<[key := count]> usage) key'
  = if decide (key = key') then count else index usage key'.
Proof.
  unfold index. rewrite lookup_insert. by destruct (decide (key = key')).
Qed.

Lemma index_empty key : index ∅ key = 0.
Proof. unfold index. by rewrite lookup_empty. Qed.

(** Rewrites a read at a day bucket of a mapping built by insertions. *)
Ltac read_bucket :=
  repeat (rewrite index_insert;
          destruct (decide _) as [?Heq%bucketDaysAgo_inj|?Hne];
          [try (exfalso; lia)
          |try (exfalso;
                match goal with H : _ ≠ _ |- _ => apply H; reflexivity end)]);
  rewrite ?index_empty.

Lemma weekBuckets_outside now usage d count :
  d < 0 ∨ 6 < d →
  weekBuckets now (<[bucketDaysAgo now d := count]> usage)
  = weekBuckets now usage.
Proof.
  intros Hd. unfold weekBuckets. apply map_ext_in.
  intros j Hj%in_seq. rewrite index_insert.
  destruct (decide _) as [Heq%bucketDaysAgo_inj|]; [lia|done].
Qed.

(** The window when both clock readings of the handler are on one UTC
    day.  For every usage mapping: [lastWeek] is the [int64] sum of today's bucket and the
    six buckets before it, and these only (a bucket of any other day does
    not change it); [allTime] is the [int64] sum of every bucket.  Both
    are the exact sums when these fit an [int64].  With 2 in the bucket of
    6 days ago and 5 in the bucket of 8 days ago, [lastWeek] is 2 and
    [allTime] is 7. *)
Theorem week_window now1 now2 (usage : gmap string Z) :
  sameDay now1 now2 →
  (aggregate now1 now2 usage).1.2 = Int64.wrap (sumZ (weekBuckets now2 usage))
  ∧ (aggregate now1 now2 usage).2 = Int64.wrap (sumZ (allBuckets usage))
  ∧ (Int64.in_range (sumZ (weekBuckets now2 usage)) →
     (aggregate now1 now2 usage).1.2 = sumZ (weekBuckets now2 usage))
  ∧ (Int64.in_range (sumZ (allBuckets usage)) →
     (aggregate now1 now2 usage).2 = sumZ (allBuckets usage))
  ∧ (∀ d count, d < 0 ∨ 6 < d →
       (aggregate now1 now2 (<[bucketDaysAgo now2 d := count]> usage)).1.2
       = (aggregate now1 now2 usage).1.2)
  ∧ aggregate now1 now2
      (<[bucketDaysAgo now2 6 := 2]> (<[bucketDaysAgo now2 8 := 5]> ∅))
    = (0, 2, 7).
Proof.
  intros Hday.
  pose proof (λ u, aggregate_lastWeek now1 now2 u Hday) as Hweek.
  pose proof (aggregate_allTime now1 now2) as Hall.
  split_and!.
  - apply Hweek.
  - apply Hall.
  - intros Hfit. by rewrite Hweek, wrap_in_range.
  - intros Hfit. by rewrite Hall, wrap_in_range.
  - intros d count Hd. by rewrite !Hweek, weekBuckets_outside.
  - set (u := <[_ := 2]> _).
    rewrite (surjective_pairing (aggregate now1 now2 u)).
    rewrite (surjective_pairing (aggregate now1 now2 u).1).
    rewrite Hweek, Hall, aggregate_lastDay, <- bucketDaysAgo_0.
    subst u. unfold weekBuckets. cbn [seq map].
    rewrite !allBuckets_insert, allBuckets_empty.
    + read_bucket. done.
    + apply lookup_empty.
    + rewrite lookup_insert_ne; [apply lookup_empty|].
      intros Heq%bucketDaysAgo_inj. lia.
Qed.

(** ** The in-memory backend, call by call *)

Lemma Local_SaveURL_existing s shortID object url expiration :
  LocalStorage.Objects s !! shortID = Some object →
  LocalStorage.SaveURL s shortID url expiration = (s, None).
Proof. intros H. unfold LocalStorage.SaveURL. by rewrite H. Qed.

Lemma Local_SaveURL_fresh s shortID url expiration :
  LocalStorage.Objects s !! shortID = None →
  LocalStorage.SaveURL s shortID url expiration
  = ({| LocalStorage.Objects :=
          <[shortID := created shortID url expiration]>
            (LocalStorage.Objects s) |}, None).
Proof. intros H. unfold LocalStorage.SaveURL. by rewrite H. Qed.

Lemma Local_GetURL_miss now s shortID :
  LocalStorage.Objects s !! shortID = None →
  LocalStorage.GetURL now s shortID = (s, (""%string, None)).
Proof. intros H. unfold LocalStorage.GetURL. by rewrite H. Qed.

Lemma Local_GetURL_hit now s shortID object :
  LocalStorage.Objects s !! shortID = Some object →
  LocalStorage.GetURL now s shortID
  = ({| LocalStorage.Objects :=
          <[shortID := visited now object]> (LocalStorage.Objects s) |},
     (URL object, None)).
Proof.
  intros H. unfold LocalStorage.GetURL. rewrite H.
  fold (todayKey now). by rewrite todayKey_spec.
Qed.

Lemma Local_GetStatistics_miss s shortID :
  LocalStorage.Objects s !! shortID = None →
  LocalStorage.GetStatistics s shortID = (s, (∅, None)).
Proof. intros H. unfold LocalStorage.GetStatistics. by rewrite H. Qed.

Lemma Local_GetStatistics_hit s shortID object :
  LocalStorage.Objects s !! shortID = Some object →
  LocalStorage.GetStatistics s shortID = (s, (Usage object, None)).
Proof. intros H. unfold LocalStorage.GetStatistics. by rewrite H. Qed.

(** A visit on the same day lands in the same bucket. *)
Lemma visited_sameDay t1 t2 object :
  sameDay t1 t2 → visited t1 object = visited t2 object.
Proof.
  intros H. unfold visited.
  by rewrite <- !todayKey_spec, (sameDay_key _ _ H).
Qed.

(** C7. For every current instant, the key under which [GetURL] counts a
    visit (in-memory backend, and the goroutine of the DynamoDB backend)
    and the key at which [GetUsageStats] reads today's count are both the
    key of the specification: the decimal string of the Unix seconds of
    the current time truncated to UTC midnight. *)
Theorem day_bucket_key_consistent (now : time.Time) :
  todayKey now = dayBucketKey_spec now
  ∧ (∀ objects shortID object,
       (LocalStorage.GetURL now
          {| LocalStorage.Objects := <[shortID := object]> objects |}
          shortID).1
       = {| LocalStorage.Objects :=
              <[shortID := visited now object]> objects |})
  ∧ (∀ table object,
       DynamoStorage.increment now dynamodb.Serves table object
       = (<[ShortID object := visited now object]> table, []))
  ∧ (∀ now1 usage,
       (aggregate now1 now usage).1.1 = index usage (dayBucketKey_spec now)).
Proof.
  split_and!.
  - apply todayKey_spec.
  - intros objects shortID object.
    rewrite (Local_GetURL_hit _ _ _ object) by apply lookup_insert_eq.
    cbn [fst LocalStorage.Objects]. by rewrite insert_insert_eq.
  - intros table object. unfold DynamoStorage.increment.
    fold (todayKey now). rewrite todayKey_spec.
    fold (visited now object).
    unfold dynamodb.PutItemWithContext.
    by destruct (table !! ShortID (visited now object)).
  - intros now1 usage. apply aggregate_lastDay.
Qed.

(** The bucket of [d] days ago is the bucket a visit [d] days earlier was
    counted in. *)
Lemma bucketDaysAgo_spec now d :
  bucketDaysAgo now d
  = dayBucketKey_spec (time.Add now (- d * (time.Hour * 24))).
Proof.
  unfold bucketDaysAgo, dayBucketKey_spec, time.Add, time.Unix. f_equal.
  rewrite day_is_seconds.
  change secondsPerDay with 86400. change time.Second with 1000000000.
  replace (now + - d * (86400 * 1000000000))
    with (now + (- d * 86400) * 1000000000) by lia.
  rewrite Z.div_add by lia.
  replace (now / 1000000000 + - d * 86400 - time.unixToInternal)
    with (now / 1000000000 - time.unixToInternal + - d * 86400) by lia.
  rewrite Z.div_add by lia. lia.
Qed.

Lemma visited_created now shortID url expiration :
  Usage (visited now (created shortID url expiration))
  = {[dayBucketKey_spec now := 1]}.
Proof. unfold visited, created. cbn [Usage]. by rewrite index_empty. Qed.

Lemma visited_thrice now shortID url expiration :
  Usage (visited now (visited now (visited now
           (created shortID url expiration))))
  = {[dayBucketKey_spec now := 3]}.
Proof.
  unfold visited at 1 2. cbn [Usage]. rewrite visited_created.
  rewrite <- !insert_empty, !index_insert.
  rewrite !decide_True by done.
  by rewrite !insert_insert_eq.
Qed.

Lemma aggregate_single now1 now2 count :
  sameDay now1 now2 →
  Int64.in_range count →
  aggregate now1 now2 {[dayBucketKey_spec now2 := count]}
  = (count, count, count).
Proof.
  intros Hday Hcount.
  set (u := {[_ := count]}).
  rewrite (surjective_pairing (aggregate now1 now2 u)).
  rewrite (surjective_pairing (aggregate now1 now2 u).1).
  rewrite aggregate_lastWeek, aggregate_allTime, aggregate_lastDay by done.
  subst u. rewrite <- insert_empty.
  rewrite allBuckets_insert, allBuckets_empty by apply lookup_empty.
  unfold weekBuckets. cbn [seq map]. rewrite <- bucketDaysAgo_0.
  read_bucket. cbn [sumZ foldr].
  replace (count + (0 + (0 + (0 + (0 + (0 + (0 + 0))))))) with count by lia.
  replace (count + 0) with count by lia.
  by rewrite wrap_in_range.
Qed.

(** C4. On the in-memory backend, from the empty storage: after one
    create with expiration 0 and three reads of the same identifier on one
    UTC day, the statistics of the identifier are one bucket, the one of
    that day, with count 3; the roll-up computed on that day is
    lastDay = lastWeek = allTime = 3, and so is the answer of the
    statistics handler. *)
Theorem usage_accounting (shortID url : string) (t1 t2 t3 now1 now2 : time.Time)
    (w : world) :
  sameDay t1 now2 → sameDay t2 now2 → sameDay t3 now2 → sameDay now1 now2 →
  let s0 := (LocalStorage.SaveURL LocalStorage.new shortID url 0).1 in
  let s1 := (LocalStorage.GetURL t1 s0 shortID).1 in
  let s2 := (LocalStorage.GetURL t2 s1 shortID).1 in
  let s3 := (LocalStorage.GetURL t3 s2 shortID).1 in
  LocalStorage.GetStatistics s3 shortID
  = (s3, ({[dayBucketKey_spec now2 := 3]}, None))
  ∧ aggregate now1 now2 {[dayBucketKey_spec now2 := 3]} = (3, 3, 3)
  ∧ shortieAPI.GetUsageStats w now1 now2 s3 shortID
    = Returned (s3, mkResponse http.StatusOK None (JSONStats 3 3 3)).
Proof.
  intros H1 H2 H3 Hnow. cbn zeta.
  rewrite Local_SaveURL_fresh by apply lookup_empty. cbn [fst].
  set (c := created shortID url 0).
  rewrite (Local_GetURL_hit t1 _ _ c) by apply lookup_insert_eq.
  cbn [fst LocalStorage.Objects].
  rewrite (Local_GetURL_hit t2 _ _ (visited t1 c)) by apply lookup_insert_eq.
  cbn [fst LocalStorage.Objects].
  rewrite (Local_GetURL_hit t3 _ _ (visited t2 (visited t1 c)))
    by apply lookup_insert_eq.
  cbn [fst LocalStorage.Objects].
  set (s3 := LocalStorage.mk _).
  assert (Hstats : LocalStorage.GetStatistics s3 shortID
                   = (s3, ({[dayBucketKey_spec now2 := 3]}, None))).
  { rewrite (Local_GetStatistics_hit _ _ (visited t3 (visited t2 (visited t1 c))))
      by apply lookup_insert_eq.
    do 2 f_equal.
    rewrite (visited_sameDay t3 now2), (visited_sameDay t2 now2),
      (visited_sameDay t1 now2) by done.
    apply visited_thrice. }
  assert (Hagg : aggregate now1 now2 {[dayBucketKey_spec now2 := 3]}
                 = (3, 3, 3)).
  { apply aggregate_single; [done|]. by vm_compute. }
  split_and!; [done..|].
  unfold shortieAPI.GetUsageStats, GetStatistics, LocalStorage_urlStorage, obind.
  by rewrite Hstats, Hagg.
Qed.

(** ** Misses *)

Lemma Local_DeleteURL_miss s shortID :
  LocalStorage.Objects s !! shortID = None →
  LocalStorage.DeleteURL s shortID = (s, None).
Proof.
  intros H. unfold LocalStorage.DeleteURL. destruct s as [objects].
  cbn [LocalStorage.Objects] in *. by rewrite delete_id.
Qed.

(** On the in-memory backend a miss is answered as the contract asks. *)
Lemma Local_miss now s shortID :
  LocalStorage.Objects s !! shortID = None →
  LocalStorage.GetURL now s shortID = (s, (""%string, None))
  ∧ LocalStorage.GetStatistics s shortID = (s, (∅, None))
  ∧ LocalStorage.DeleteURL s shortID = (s, None).
Proof.
  intros H. split_and!.
  - by apply Local_GetURL_miss.
  - by apply Local_GetStatistics_miss.
  - by apply Local_DeleteURL_miss.
Qed.

Lemma Dynamo_getObject_miss st shortID :
  DynamoStorage.dynamo st !! shortID = None →
  DynamoStorage.getObject dynamodb.Serves st shortID = (None, None).
Proof.
  intros H. unfold DynamoStorage.getObject, dynamodb.GetItemWithContext.
  by rewrite H.
Qed.

(** On the DynamoDB backend, with the service answering, a read and a
    delete of a missing identifier are answered as the contract asks. *)
Lemma Dynamo_GetURL_DeleteURL_miss st shortID :
  DynamoStorage.dynamo st !! shortID = None →
  DynamoStorage.GetURL dynamodb.Serves st shortID = (st, (""%string, None))
  ∧ DynamoStorage.DeleteURL dynamodb.Serves st shortID = (st, None).
Proof.
  intros H. split.
  - unfold DynamoStorage.GetURL. by rewrite Dynamo_getObject_miss.
  - unfold DynamoStorage.DeleteURL, dynamodb.DeleteItemWithContext.
    destruct st as [table pending]. cbn [DynamoStorage.dynamo] in *.
    by rewrite delete_id.
Qed.

(** The statistics of a missing identifier on the DynamoDB backend: the
    field access on the [nil] object panics, whatever the table holds
    under other keys. *)
Lemma Dynamo_GetStatistics_miss st shortID :
  DynamoStorage.dynamo st !! shortID = None →
  DynamoStorage.GetStatistics dynamodb.Serves st shortID
  = Panicked "runtime error: invalid memory address or nil pointer dereference".
Proof.
  intros H. unfold DynamoStorage.GetStatistics.
  by rewrite Dynamo_getObject_miss.
Qed.

(** C1, at the identifier "222" of the repository's test "get usage -
    empty", on a DynamoDB table that holds only "111": [GetStatistics]
    panics where the contract asks for the empty mapping and no error,
    and the statistics request is answered with status 500; the
    in-memory backend, in the same situation, returns the empty mapping
    and the handler answers 200 with three zeros. *)
Theorem Dynamo_GetStatistics_absent_panics :
  let w := mkWorld (time.of_unix 1700000000 0) dynamodb.Serves in
  let st := (DynamoStorage.SaveURL dynamodb.Serves DynamoStorage.new
               "111" "http://redirection.com/portal/portal" 0).1 in
  let s := (LocalStorage.SaveURL LocalStorage.new
              "111" "http://redirection.com/portal/portal" 0).1 in
  DynamoStorage.dynamo st !! "222"%string = None
  ∧ DynamoStorage.GetStatistics dynamodb.Serves st "222"
    = Panicked "runtime error: invalid memory address or nil pointer dereference"
  ∧ (shortieAPI.recovery st (shortieAPI.GetUsageStats w (now w) (now w) st "222")).2
    = mkResponse http.StatusInternalServerError None NoBody
  ∧ LocalStorage.GetStatistics s "222" = (s, (∅, None))
  ∧ (shortieAPI.recovery s (shortieAPI.GetUsageStats w (now w) (now w) s "222")).2
    = mkResponse http.StatusOK None (JSONStats 0 0 0).
Proof. cbn zeta. split_and!; by vm_compute. Qed.

(** ** Creation *)

Lemma Dynamo_SaveURL_existing st shortID object url expiration :
  DynamoStorage.dynamo st !! shortID = Some object →
  DynamoStorage.SaveURL dynamodb.Serves st shortID url expiration = (st, None).
Proof.
  intros H. destruct st as [table pending]. cbn [DynamoStorage.dynamo] in H.
  unfold DynamoStorage.SaveURL, dynamodb.PutItemWithContext.
  cbn [ShortID DynamoStorage.dynamo DynamoStorage.spawned]. by rewrite H.
Qed.

(** A create the service does not serve reports the failure and changes
    nothing, unless the failure is the conditional check itself. *)
Lemma Dynamo_SaveURL_fails st shortID url expiration err :
  awserr.Code err ≠ dynamodb.ErrCodeConditionalCheckFailedException →
  DynamoStorage.SaveURL (dynamodb.Fails err) st shortID url expiration
  = (st, Some ("failed to save a url: " +:+ awserr.Error err)).
Proof.
  intros Hcode. destruct st as [table pending].
  unfold DynamoStorage.SaveURL, dynamodb.PutItemWithContext.
  cbn [DynamoStorage.dynamo DynamoStorage.spawned].
  by rewrite decide_False.
Qed.

Lemma Dynamo_SaveURL_fresh table pending shortID url expiration :
  table !! shortID = None →
  DynamoStorage.SaveURL dynamodb.Serves (DynamoStorage.mk table pending)
    shortID url expiration
  = (DynamoStorage.mk (<[shortID := created shortID url expiration]> table)
       pending, None).
Proof.
  intros H. unfold DynamoStorage.SaveURL, dynamodb.PutItemWithContext.
  cbn [ShortID DynamoStorage.dynamo DynamoStorage.spawned]. by rewrite H.
Qed.

(** C2. A create for an identifier that already has a record returns no
    error and leaves the whole state as it was, hence the record with its
    URL, expiration and usage; a create for a free identifier stores the
    record of its arguments with empty usage.  So two creates for one
    identifier are the first create alone, neither returns an error, and
    from the empty storage they leave exactly one record, the first
    writer's.  All of this on the in-memory backend and, when the service
    answers the conditional puts, on the DynamoDB backend. *)
Theorem create_is_idempotent (s : LocalStorage.t) (shortID : string)
    (object : URLObject) (url1 url2 : string) (expiration1 expiration2 : Z) :
  LocalStorage.Objects s !! shortID = Some object →
  LocalStorage.SaveURL s shortID url2 expiration2 = (s, None)
  ∧ (∀ table pending object',
       let st := DynamoStorage.mk (<[shortID := object']> table) pending in
       DynamoStorage.SaveURL dynamodb.Serves st shortID url2 expiration2
       = (st, None))
  ∧ (∀ s0 : LocalStorage.t,
       let s1 := (LocalStorage.SaveURL s0 shortID url1 expiration1).1 in
       (LocalStorage.SaveURL s0 shortID url1 expiration1).2 = None
       ∧ LocalStorage.SaveURL s1 shortID url2 expiration2 = (s1, None))
  ∧ (let s1 := (LocalStorage.SaveURL LocalStorage.new
                  shortID url1 expiration1).1 in
     let s2 := (LocalStorage.SaveURL s1 shortID url2 expiration2).1 in
     LocalStorage.Objects s2 = {[shortID := created shortID url1 expiration1]}
     ∧ size (LocalStorage.Objects s2) = 1%nat)
  ∧ (∀ s0 : LocalStorage.t,
       LocalStorage.Objects s0 !! shortID = None →
       LocalStorage.SaveURL s0 shortID url1 expiration1
       = (LocalStorage.mk (<[shortID := created shortID url1 expiration1]>
                             (LocalStorage.Objects s0)), None))
  ∧ (∀ table pending,
       table !! shortID = None →
       DynamoStorage.SaveURL dynamodb.Serves (DynamoStorage.mk table pending)
         shortID url1 expiration1
       = (DynamoStorage.mk
            (<[shortID := created shortID url1 expiration1]> table) pending,
          None))
  ∧ (∀ st0 : DynamoStorage.t,
       let st1 := (DynamoStorage.SaveURL dynamodb.Serves st0
                     shortID url1 expiration1).1 in
       (DynamoStorage.SaveURL dynamodb.Serves st0
          shortID url1 expiration1).2 = None
       ∧ DynamoStorage.SaveURL dynamodb.Serves st1 shortID url2 expiration2
         = (st1, None))
  ∧ (let st1 := (DynamoStorage.SaveURL dynamodb.Serves DynamoStorage.new
                   shortID url1 expiration1).1 in
     let st2 := (DynamoStorage.SaveURL dynamodb.Serves st1
                   shortID url2 expiration2).1 in
     DynamoStorage.dynamo st2 = {[shortID := created shortID url1 expiration1]}
     ∧ size (DynamoStorage.dynamo st2) = 1%nat
     ∧ DynamoStorage.spawned st2 = []).
Proof.
  intros Hs. split_and!.
  - by eapply Local_SaveURL_existing.
  - intros table pending object'. cbn zeta.
    eapply Dynamo_SaveURL_existing. apply lookup_insert_eq.
  - intros s0. cbn zeta. split.
    + unfold LocalStorage.SaveURL.
      by destruct (LocalStorage.Objects s0 !! shortID).
    + destruct (LocalStorage.Objects s0 !! shortID) as [o|] eqn:Hlook.
      * rewrite (Local_SaveURL_existing s0 _ o) by done. cbn [fst].
        by eapply Local_SaveURL_existing.
      * rewrite (Local_SaveURL_fresh s0) by done. cbn [fst].
        eapply Local_SaveURL_existing. apply lookup_insert_eq.
  - cbn zeta.
    rewrite (Local_SaveURL_fresh LocalStorage.new) by apply lookup_empty.
    cbn [fst].
    rewrite (Local_SaveURL_existing _ _ (created shortID url1 expiration1))
      by apply lookup_insert_eq.
    unfold LocalStorage.new. cbn [fst LocalStorage.Objects].
    rewrite insert_empty.
    split; [done|apply map_size_singleton].
  - intros s0 Hfresh. by apply Local_SaveURL_fresh.
  - intros table pending Hfresh. by apply Dynamo_SaveURL_fresh.
  - intros [table pending]. cbn zeta.
    destruct (table !! shortID) as [o|] eqn:Hlook.
    + rewrite (Dynamo_SaveURL_existing (DynamoStorage.mk table pending) _ o)
        by done.
      cbn [fst snd]. split; [done|]. by eapply Dynamo_SaveURL_existing.
    + rewrite (Dynamo_SaveURL_fresh table pending) by done.
      cbn [fst snd]. split; [done|].
      eapply Dynamo_SaveURL_existing. apply lookup_insert_eq.
  - cbn zeta. unfold DynamoStorage.new.
    rewrite (Dynamo_SaveURL_fresh ∅ []) by apply lookup_empty. cbn [fst].
    rewrite (Dynamo_SaveURL_existing _ _ (created shortID url1 expiration1))
      by apply lookup_insert_eq.
    cbn [fst DynamoStorage.dynamo DynamoStorage.spawned].
    rewrite insert_empty.
    split_and!; [done|apply map_size_singleton|done].
Qed.

(** ** Reads *)

Lemma Dynamo_GetURL_hit st shortID object :
  DynamoStorage.dynamo st !! shortID = Some object →
  (DynamoStorage.GetURL dynamodb.Serves st shortID).2 = (URL object, None).
Proof.
  intros H. unfold DynamoStorage.GetURL, DynamoStorage.getObject,
    dynamodb.GetItemWithContext. by rewrite H.
Qed.

(** C6. Whatever the clock reads and whatever expiration a record
    carries, a read of its identifier returns its URL and no error, and
    its statistics are returned: no read path looks at [Expiration].  The
    same holds on the DynamoDB backend when the service answers. *)
Theorem expiration_is_not_enforced (now : time.Time) (s : LocalStorage.t)
    (shortID : string) (object : URLObject) :
  LocalStorage.Objects s !! shortID = Some object →
  (LocalStorage.GetURL now s shortID).2 = (URL object, None)
  ∧ (LocalStorage.GetStatistics s shortID).2 = (Usage object, None)
  ∧ (∀ table pending object',
       let st := DynamoStorage.mk (<[shortID := object']> table) pending in
       (DynamoStorage.GetURL dynamodb.Serves st shortID).2
       = (URL object', None)
       ∧ DynamoStorage.GetStatistics dynamodb.Serves st shortID
         = Returned (st, (Usage object', None))).
Proof.
  intros Hs. split_and!.
  - by rewrite (Local_GetURL_hit _ _ _ object).
  - by rewrite (Local_GetStatistics_hit _ _ object).
  - intros table pending object'. cbn zeta. split.
    + apply Dynamo_GetURL_hit, lookup_insert_eq.
    + unfold DynamoStorage.GetStatistics, DynamoStorage.getObject,
        dynamodb.GetItemWithContext.
      cbn [DynamoStorage.dynamo]. by rewrite lookup_insert_eq.
Qed.

(** C9. After a create with the empty URL for a fresh identifier, the
    record is stored, and yet a read of the identifier returns what a read
    of a missing identifier returns, the empty string and no error; the
    redirect handler answers 404 for it. *)
Theorem empty_url_reads_as_miss (now : time.Time) (w : world)
    (s : LocalStorage.t) (shortID : string) (expiration : Z) :
  LocalStorage.Objects s !! shortID = None →
  let s' := (LocalStorage.SaveURL s shortID "" expiration).1 in
  LocalStorage.Objects s' !! shortID = Some (created shortID "" expiration)
  ∧ (LocalStorage.GetURL now s' shortID).2 = (""%string, None)
  ∧ (LocalStorage.GetURL now s' shortID).2 = (LocalStorage.GetURL now s shortID).2
  ∧ (shortieAPI.recovery s' (shortieAPI.HandleRedirect w s' shortID)).2
    = mkResponse http.StatusNotFound None (Text "Not Found").
Proof.
  intros Hfresh. cbn zeta.
  rewrite Local_SaveURL_fresh by done. cbn [fst].
  set (s' := LocalStorage.mk _).
  assert (Hlook : LocalStorage.Objects s' !! shortID
                  = Some (created shortID "" expiration))
    by apply lookup_insert_eq.
  split_and!.
  - done.
  - by rewrite (Local_GetURL_hit _ _ _ _ Hlook).
  - by rewrite (Local_GetURL_hit _ _ _ _ Hlook), Local_GetURL_miss.
  - unfold shortieAPI.HandleRedirect, GetURL, LocalStorage_urlStorage, obind.
    by rewrite (Local_GetURL_hit _ _ _ _ Hlook).
Qed.

(** C10. On the in-memory backend each of the four operations of the
    contract, in every state and for every argument, returns (it does not
    panic) and its error is [nil]. *)
Theorem Local_never_fails (w : world) (s : LocalStorage.t)
    (shortID url : string) (expiration : Z) :
  (∃ s', SaveURL w s shortID url expiration = Returned (s', None))
  ∧ (∃ s' url', GetURL w s shortID = Returned (s', (url', None)))
  ∧ (∃ s', DeleteURL w s shortID = Returned (s', None))
  ∧ (∃ s' usage, GetStatistics w s shortID = Returned (s', (usage, None))).
Proof.
  cbn [SaveURL GetURL DeleteURL GetStatistics LocalStorage_urlStorage].
  unfold LocalStorage.SaveURL, LocalStorage.GetURL, LocalStorage.DeleteURL,
    LocalStorage.GetStatistics.
  destruct (LocalStorage.Objects s !! shortID); split_and!; eauto.
Qed.

(** ** The identifier generator *)

Lemma digit_lower n : isLowerHex (hex.digit n) = true.
Proof.
  unfold hex.digit. generalize (Z.to_nat n) as k. intros k.
  do 16 (destruct k as [|k]; [reflexivity|]). reflexivity.
Qed.

Lemma Encode_lower src : allLowerHex (hex.EncodeToString src) = true.
Proof.
  induction src as [|v src IH]; [done|].
  cbn [hex.EncodeToString allLowerHex]. by rewrite !digit_lower, IH.
Qed.

Lemma Encode_length src :
  String.length (hex.EncodeToString src) = (2 * length src)%nat.
Proof. induction src as [|v src IH]; simpl in *; lia. Qed.

Lemma Encode_app src1 src2 :
  hex.EncodeToString (src1 ++ src2)
  = hex.EncodeToString src1 +:+ hex.EncodeToString src2.
Proof. induction src1 as [|v src1 IH]; simpl; by rewrite ?IH. Qed.

(** A digit of the identifier is not a dash. *)
Lemma lower_not_dash c s :
  isLowerHex c = true → String.prefix "-" (String c s) = false.
Proof.
  destruct c as [[] [] [] [] [] [] [] []]; intros H;
    solve [discriminate H | reflexivity].
Qed.

Lemma ReplaceAll_lower s1 s2 :
  allLowerHex s1 = true →
  strings.ReplaceAll (s1 +:+ s2) "-" "" = s1 +:+ strings.ReplaceAll s2 "-" "".
Proof.
  unfold strings.ReplaceAll.
  induction s1 as [|c s1 IH]; intros Hlow; [done|].
  cbn [allLowerHex] in Hlow. apply andb_prop in Hlow as [Hc Hs1].
  change (String c s1 +:+ s2) with (String c (s1 +:+ s2)).
  change (String c s1 +:+ strings.replace_from 0 s2 "-" "")
    with (String c (s1 +:+ strings.replace_from 0 s2 "-" "")).
  cbn [strings.replace_from].
  rewrite (lower_not_dash c _ Hc). by rewrite IH.
Qed.

Lemma ReplaceAll_dash s :
  strings.ReplaceAll ("-" +:+ s) "-" "" = strings.ReplaceAll s "-" "".
Proof. by destruct s. Qed.

Lemma ReplaceAll_lower_end s :
  allLowerHex s = true → strings.ReplaceAll s "-" "" = s.
Proof.
  unfold strings.ReplaceAll.
  induction s as [|c s IH]; intros Hlow; [done|].
  cbn [allLowerHex] in Hlow. apply andb_prop in Hlow as [Hc Hs].
  cbn [strings.replace_from]. rewrite (lower_not_dash c _ Hc). by rewrite IH.
Qed.

(** Without its dashes, the text of a UUID is the hexadecimal text of its
    sixteen bytes. *)
Lemma String_without_dashes (u : uuid.UUID) :
  length u = 16%nat →
  strings.ReplaceAll (uuid.String u) "-" "" = hex.EncodeToString u.
Proof.
  intros Hlen. unfold uuid.String.
  repeat (rewrite ReplaceAll_lower by apply Encode_lower;
          rewrite ReplaceAll_dash).
  rewrite ReplaceAll_lower_end by apply Encode_lower.
  rewrite <- !Encode_app. f_equal.
  do 16 (destruct u as [|? u]; [discriminate Hlen|]).
  by destruct u.
Qed.

Lemma be_bytes_length width x : length (sha1.be_bytes width x) = width.
Proof.
  unfold sha1.be_bytes. by rewrite length_map, length_rev, length_seq.
Qed.

Lemma Sum_length data : length (sha1.Sum data) = 20%nat.
Proof.
  unfold sha1.Sum.
  destruct (sha1.blocks _ _ _) as [[[[h0 h1] h2] h3] h4].
  by rewrite !length_app, !be_bytes_length.
Qed.

Lemma NewHash_length sum space data version :
  length (uuid.NewHash sum space data version) = 16%nat.
Proof.
  unfold uuid.NewHash. rewrite !length_insert, length_take, length_app.
  rewrite repeat_length. lia.
Qed.

(** The version and variant bits sit behind the first five bytes. *)
Lemma NewSHA1_take5 space data :
  take 5 (uuid.NewSHA1 space data) = take 5 (sha1.Sum (space ++ data)).
Proof.
  unfold uuid.NewSHA1, uuid.NewHash.
  rewrite !take_insert_ge by lia.
  rewrite take_take, take_app_le by (rewrite Sum_length; lia).
  done.
Qed.

Lemma substring_Encode (n : nat) src :
  String.substring 0 (2 * n) (hex.EncodeToString src)
  = hex.EncodeToString (take n src).
Proof.
  revert src. induction n as [|n IH]; intros src.
  - by destruct src.
  - replace (2 * S n)%nat with (S (S (2 * n))) by lia.
    destruct src as [|v src]; [done|].
    cbn [hex.EncodeToString String.substring take]. by rewrite IH.
Qed.

(** The identifier of a URL: the first five bytes of the SHA-1 digest of
    the URL name space followed by the URL, in lower-case hexadecimal. *)
Lemma shortIDOf_digest url :
  shortIDOf url
  = Some (hex.EncodeToString
            (take 5 (sha1.Sum (uuid.NameSpaceURL ++ bytes_of_string url)))).
Proof.
  unfold shortIDOf, slice_string.
  rewrite String_without_dashes by apply NewHash_length.
  rewrite decide_True.
  - change (10 - 0)%nat with (2 * 5)%nat.
    by rewrite substring_Encode, NewSHA1_take5.
  - rewrite Encode_length.
    unfold uuid.NewSHA1. rewrite NewHash_length. lia.
Qed.

(** The identifier of the URL of the repository's test "create a url". *)
Example shortIDOf_example :
  shortIDOf "https://example.com/data/hi" = Some "4e24c46962"%string.
Proof. by vm_compute. Qed.

(** C5. The identifier [CreateURL] generates exists for every URL (the
    slice expression does not panic), has ten characters, each a decimal
    digit or one of a to f, and is a function of the URL alone: whatever
    the clock, the answer of the service, the state of the in-memory
    storage and the expiration of the request, [CreateURL] stores the URL
    under that identifier and answers with it. *)
Theorem identifier_is_deterministic (url : string) :
  ∃ shortID,
    shortIDOf url = Some shortID
    ∧ String.length shortID = 10%nat
    ∧ allLowerHex shortID = true
    ∧ ∀ (w : world) (s : LocalStorage.t) (expiration : Z),
        shortieAPI.CreateURL w s (BindOk url expiration)
        = Returned
            ((LocalStorage.SaveURL s shortID url expiration).1,
             mkResponse http.StatusOK None
               (JSONShortUrl ("http://localhost:8421/shortie/" +:+ shortID))).
Proof.
  eexists. split; [apply shortIDOf_digest|]. split_and!.
  - rewrite Encode_length, length_take, Sum_length. lia.
  - apply Encode_lower.
  - intros w s expiration. unfold shortieAPI.CreateURL.
    rewrite shortIDOf_digest.
    cbn [SaveURL LocalStorage_urlStorage obind].
    unfold LocalStorage.SaveURL.
    by destruct (LocalStorage.Objects s !! _).
Qed.

(** ** Growth of the usage mapping *)

(** What a call leaves of the objects. *)
Lemma after_Save s shortID url expiration :
  LocalStorage.Objects (after (Save shortID url expiration) s)
  = match LocalStorage.Objects s !! shortID with
    | Some _ => LocalStorage.Objects s
    | None => <[shortID := created shortID url expiration]>
                (LocalStorage.Objects s)
    end.
Proof.
  cbn [after]. unfold LocalStorage.SaveURL.
  by destruct (LocalStorage.Objects s !! shortID).
Qed.

Lemma after_Get s now shortID :
  LocalStorage.Objects (after (Get now shortID) s)
  = match LocalStorage.Objects s !! shortID with
    | Some object => <[shortID := visited now object]> (LocalStorage.Objects s)
    | None => LocalStorage.Objects s
    end.
Proof.
  cbn [after].
  destruct (LocalStorage.Objects s !! shortID) as [object|] eqn:Hlook.
  - by rewrite (Local_GetURL_hit _ _ _ object).
  - by rewrite Local_GetURL_miss.
Qed.

Lemma after_Statistics s shortID : after (Statistics shortID) s = s.
Proof.
  cbn [after]. unfold LocalStorage.GetStatistics.
  by destruct (LocalStorage.Objects s !! shortID).
Qed.

(** Every count of a visited record, in terms of the record before. *)
Lemma visited_lookup now object key count :
  Usage (visited now object) !! key = Some count →
  (key = dayBucketKey_spec now
   ∧ count = Int64.add (index (Usage object) key) 1)
  ∨ (key ≠ dayBucketKey_spec now ∧ Usage object !! key = Some count).
Proof.
  unfold visited. cbn [Usage]. rewrite lookup_insert.
  destruct (decide (dayBucketKey_spec now = key)) as [<-|Hne].
  - intros [= <-]. by left.
  - intros H. right. split; [congruence|done].
Qed.

(** After [n] calls no bucket holds more than [n], as long as [n] itself
    is an [int64]. *)
Lemma counts_bounded n s :
  reachable n s →
  Z.of_nat n <= Int64.max_int →
  ∀ shortID object key count,
    LocalStorage.Objects s !! shortID = Some object →
    Usage object !! key = Some count →
    0 <= count <= Z.of_nat n.
Proof.
  induction 1 as [|n s c Hreach IH]; intros Hn shortID object key count.
  - unfold LocalStorage.new. cbn [LocalStorage.Objects].
    by rewrite lookup_empty.
  - assert (Hprev : ∀ object,
              LocalStorage.Objects s !! shortID = Some object →
              Usage object !! key = Some count →
              0 <= count <= Z.of_nat (S n)).
    { intros o Ho Hk. specialize (IH ltac:(lia) _ _ _ _ Ho Hk). lia. }
    destruct c as [id url expiration|now id|id|id].
    + rewrite after_Save.
      destruct (LocalStorage.Objects s !! id) eqn:Hid; [apply Hprev|].
      rewrite lookup_insert.
      destruct (decide (id = shortID)) as [->|_]; [|apply Hprev].
      intros [= <-]. unfold created. cbn [Usage]. by rewrite lookup_empty.
    + rewrite after_Get.
      destruct (LocalStorage.Objects s !! id) as [o|] eqn:Hid; [|apply Hprev].
      rewrite lookup_insert.
      destruct (decide (id = shortID)) as [->|_]; [|apply Hprev].
      intros [= <-] [[-> ->]|[_ Hk]]%visited_lookup; [|by eapply Hprev].
      assert (0 <= index (Usage o) (dayBucketKey_spec now) <= Z.of_nat n)
        as Hold.
      { unfold index.
        destruct (Usage o !! dayBucketKey_spec now) as [v|] eqn:Hv;
          cbn [default]; [|lia].
        eapply IH; [lia|done..]. }
      rewrite add_small; [lia|].
      unfold Int64.in_range, Int64.min_int, Int64.max_int in *. lia.
    + cbn [after LocalStorage.DeleteURL fst LocalStorage.Objects].
      rewrite lookup_delete.
      destruct (decide (id = shortID)); [done|apply Hprev].
    + rewrite after_Statistics. apply Hprev.
Qed.

(** C8. In a state of the in-memory backend reached from the empty
    storage by fewer than 2^63 - 1 calls (the counts are [int64]), a call
    other than a delete keeps every bucket of every record, with a count
    at least as large.  A statistics call and a create for an existing
    identifier leave the state as it is, and a read of a stored identifier
    changes one bucket only, today's bucket of that record, which gets
    one more. *)
Theorem usage_only_grows (n : nat) (s : LocalStorage.t) (c : call) :
  reachable n s →
  Z.of_nat n < Int64.max_int →
  isDelete c = false →
  usageGrows s (after c s)
  ∧ (∀ shortID, after (Statistics shortID) s = s)
  ∧ (∀ shortID url expiration,
       is_Some (LocalStorage.Objects s !! shortID) →
       after (Save shortID url expiration) s = s)
  ∧ (∀ now shortID object,
       LocalStorage.Objects s !! shortID = Some object →
       let today := dayBucketKey_spec now in
       LocalStorage.Objects (after (Get now shortID) s)
       = <[shortID :=
             {| ShortID := ShortID object;
                URL := URL object;
                Version := Version object;
                Expiration := Expiration object;
                Usage := <[today := index (Usage object) today + 1]>
                           (Usage object) |}]>
           (LocalStorage.Objects s)).
Proof.
  intros Hreach Hn Hc.
  pose proof (counts_bounded n s Hreach ltac:(lia)) as Hbound.
  assert (Hnext : ∀ now shortID object,
            LocalStorage.Objects s !! shortID = Some object →
            Int64.add (index (Usage object) (dayBucketKey_spec now)) 1
            = index (Usage object) (dayBucketKey_spec now) + 1
            ∧ 0 <= index (Usage object) (dayBucketKey_spec now)).
  { intros now shortID object Hobj.
    assert (0 <= index (Usage object) (dayBucketKey_spec now) <= Z.of_nat n)
      as Hold.
    { unfold index.
      destruct (Usage object !! dayBucketKey_spec now) as [v|] eqn:Hv;
        cbn [default]; [by eapply Hbound|lia]. }
    split; [|lia]. apply add_small.
    unfold Int64.in_range, Int64.min_int, Int64.max_int in *. lia. }
  split_and!.
  - intros shortID object key count Hobj Hkey.
    destruct c as [id url expiration|now id|id|id]; [| |done|].
    + rewrite after_Save.
      destruct (LocalStorage.Objects s !! id) eqn:Hid;
        [by exists object, count|].
      exists object, count. rewrite lookup_insert_ne by congruence. done.
    + rewrite after_Get.
      destruct (LocalStorage.Objects s !! id) as [o|] eqn:Hid;
        [|by exists object, count].
      destruct (decide (id = shortID)) as [->|Hne].
      * assert (o = object) as -> by congruence.
        rewrite lookup_insert_eq.
        destruct (decide (key = dayBucketKey_spec now)) as [->|Hk].
        -- eexists _, _. split; [done|]. unfold visited. cbn [Usage].
           rewrite lookup_insert_eq. split; [done|].
           destruct (Hnext now shortID object Hobj) as [-> _].
           unfold index. rewrite Hkey. cbn [default id]. lia.
        -- exists (visited now object), count. split; [done|].
           unfold visited. cbn [Usage].
           by rewrite lookup_insert_ne.
      * exists object, count. by rewrite lookup_insert_ne.
    + rewrite after_Statistics. by exists object, count.
  - apply after_Statistics.
  - intros shortID url expiration [object Hobj].
    cbn [after]. by rewrite (Local_SaveURL_existing _ _ object).
  - intros now shortID object Hobj. cbn zeta.
    rewrite after_Get, Hobj. unfold visited.
    by destruct (Hnext now shortID object Hobj) as [-> _].
Qed.

(** ** The limits of the hypotheses *)

(** When midnight falls between the two clock readings of
    [GetUsageStats], today's bucket is the one of the new day while the
    six others are counted back from the old day: the bucket of the old
    day (here 4, under "0") is left out and the bucket seven days before
    the new day (here 7) is counted. *)
Remark aggregate_across_midnight :
  aggregate (time.of_unix 86399 0) (time.of_unix 86400 0)
    (<["86400"%string := 1]> (<["0"%string := 4]>
       (<["-518400"%string := 7]> ∅)))
  = (1, 8, 12).
Proof. by vm_compute. Qed.

(** C3, at two clock readings one nanosecond apart with midnight between
    them (the last nanosecond of January 1, 1970 and the first of January
    2) and three visits counted on January 1: [GetUsageStats] answers
    lastWeek = 0, while today's bucket and the six before it add up to 3
    whichever of the two days is taken for today.  The in-memory backend
    reaches this usage mapping by a create and three reads on January 1. *)
Theorem week_window_broken_across_midnight :
  let now1 := time.of_unix 86399 999999999 in
  let now2 := time.of_unix 86400 0 in
  let usage : gmap string Z := {[ "0"%string := 3 ]} in
  let w := mkWorld now2 dynamodb.Serves in
  let s := visits [time.of_unix 100 0; time.of_unix 200 0; time.of_unix 300 0]
             (LocalStorage.SaveURL LocalStorage.new "abc" "http://x.com" 0).1
             "abc" in
  now2 = time.Add now1 time.Nanosecond
  ∧ aggregate now1 now2 usage = (0, 0, 3)
  ∧ sumZ (weekBuckets now1 usage) = 3
  ∧ sumZ (weekBuckets now2 usage) = 3
  ∧ LocalStorage.GetStatistics s "abc" = (s, (usage, None))
  ∧ shortieAPI.GetUsageStats w now1 now2 s "abc"
    = Returned (s, mkResponse http.StatusOK None (JSONStats 0 0 3)).
Proof. cbn zeta. split_and!; by vm_compute. Qed.

(** A count at the largest [int64] wraps to the smallest with one more
    visit. *)
Remark visit_wraps_at_max_int :
  Int64.add Int64.max_int 1 = Int64.min_int.
Proof. reflexivity. Qed.

(** ** Instances *)

Lemma week_window_witness :
  let now1 := time.of_unix 1700000000 0 in
  let now2 := time.of_unix 1700000001 5 in
  sameDay now1 now2
  ∧ aggregate now1 now2
      (<[bucketDaysAgo now2 6 := 2]> (<[bucketDaysAgo now2 8 := 5]> ∅))
    = (0, 2, 7).
Proof.
  cbn zeta. split; [reflexivity|].
  pose proof (week_window (time.of_unix 1700000000 0)
                (time.of_unix 1700000001 5) ∅ eq_refl)
    as (_ & _ & _ & _ & _ & Hscenario).
  exact Hscenario.
Defined.

Lemma usage_accounting_witness :
  let t1 := time.of_unix 1700000000 0 in
  let t2 := time.of_unix 1700000060 0 in
  let t3 := time.of_unix 1700000120 0 in
  let now := time.of_unix 1700000180 0 in
  let s0 := (LocalStorage.SaveURL LocalStorage.new "abc" "http://x.com" 0).1 in
  let s1 := (LocalStorage.GetURL t1 s0 "abc").1 in
  let s2 := (LocalStorage.GetURL t2 s1 "abc").1 in
  let s3 := (LocalStorage.GetURL t3 s2 "abc").1 in
  sameDay t1 now ∧ sameDay t2 now ∧ sameDay t3 now
  ∧ LocalStorage.GetStatistics s3 "abc"
    = (s3, ({[dayBucketKey_spec now := 3]}, None)).
Proof.
  cbn zeta. split_and!; [reflexivity..|].
  pose proof (usage_accounting "abc" "http://x.com"
                (time.of_unix 1700000000 0) (time.of_unix 1700000060 0)
                (time.of_unix 1700000120 0) (time.of_unix 1700000180 0)
                (time.of_unix 1700000180 0)
                (mkWorld (time.of_unix 1700000180 0) dynamodb.Serves)
                eq_refl eq_refl eq_refl eq_refl) as (Hstats & _).
  exact Hstats.
Defined.

Lemma create_is_idempotent_witness :
  let first := created "abc" "http://x.com" 0 in
  let s := LocalStorage.mk {[ "abc"%string := first ]} in
  LocalStorage.Objects s !! "abc"%string = Some first
  ∧ LocalStorage.SaveURL s "abc" "http://other.com" 7 = (s, None).
Proof.
  cbn zeta. split; [reflexivity|].
  pose proof (create_is_idempotent
                (LocalStorage.mk
                   {[ "abc"%string := created "abc" "http://x.com" 0 ]})
                "abc" (created "abc" "http://x.com" 0)
                "http://x.com" "http://other.com" 0 7 eq_refl)
    as (Hlocal & _).
  exact Hlocal.
Defined.

Lemma expiration_is_not_enforced_witness :
  let now := time.of_unix 1700000000 0 in
  let expired := {| ShortID := "abc"; URL := "http://x.com"; Version := 0;
                    Expiration := 1; Usage := ∅ |} in
  let s := LocalStorage.mk {[ "abc"%string := expired ]} in
  (Expiration expired ≠ 0 ∧ Expiration expired < time.Unix now)
  ∧ LocalStorage.Objects s !! "abc"%string = Some expired
  ∧ (LocalStorage.GetURL now s "abc").2 = ("http://x.com"%string, None).
Proof.
  cbn zeta. split; [split; [discriminate|reflexivity]|].
  split; [reflexivity|].
  set (expired := {| ShortID := "abc"; URL := "http://x.com"; Version := 0;
                     Expiration := 1; Usage := ∅ |}).
  pose proof (expiration_is_not_enforced (time.of_unix 1700000000 0)
                (LocalStorage.mk {[ "abc"%string := expired ]})
                "abc" expired eq_refl) as (Hlocal & _).
  exact Hlocal.
Defined.

Lemma empty_url_reads_as_miss_witness :
  let now := time.of_unix 1700000000 0 in
  let w := mkWorld now dynamodb.Serves in
  let s' := (LocalStorage.SaveURL LocalStorage.new "abc" "" 0).1 in
  LocalStorage.Objects LocalStorage.new !! "abc"%string = None
  ∧ (shortieAPI.recovery s' (shortieAPI.HandleRedirect w s' "abc")).2
    = mkResponse http.StatusNotFound None (Text "Not Found").
Proof.
  cbn zeta. split; [reflexivity|].
  pose proof (empty_url_reads_as_miss (time.of_unix 1700000000 0)
                (mkWorld (time.of_unix 1700000000 0) dynamodb.Serves)
                LocalStorage.new "abc" 0 eq_refl) as (_ & _ & _ & Hnotfound).
  exact Hnotfound.
Defined.

Lemma usage_only_grows_witness :
  let now := time.of_unix 1700000000 0 in
  let s := after (Get now "abc")
             (after (Save "abc" "http://x.com" 0) LocalStorage.new) in
  reachable 2 s
  ∧ Z.of_nat 2 < Int64.max_int
  ∧ isDelete (Get now "abc") = false
  ∧ usageGrows s (after (Get now "abc") s).
Proof.
  cbn zeta.
  assert (Hreach : reachable 2
            (after (Get (time.of_unix 1700000000 0) "abc")
               (after (Save "abc" "http://x.com" 0) LocalStorage.new)))
    by (do 2 apply reachable_call; apply reachable_new).
  split; [exact Hreach|]. split; [reflexivity|]. split; [reflexivity|].
  pose proof (usage_only_grows 2 _ (Get (time.of_unix 1700000000 0) "abc")
                Hreach eq_refl eq_refl) as (Hgrows & _).
  exact Hgrows.
Defined.

(** * Further properties *)

(** ** The day of an instant *)

Lemma today_div now :
  UTCTimestampOfTodayRounded now
  = time.Hour * 24 * (now / (time.Hour * 24)).
Proof.
  unfold UTCTimestampOfTodayRounded, time.Truncate, time.UTC.
  change (time.Hour * 24 <=? 0) with false. cbv iota.
  pose proof (Z.div_mod now (time.Hour * 24) ltac:(done)). lia.
Qed.

Lemma dayOf_div now : dayOf now = now / (time.Hour * 24) - 719162.
Proof.
  unfold dayOf, time.Unix. rewrite day_is_seconds.
  change time.unixToInternal with (719162 * secondsPerDay).
  change secondsPerDay with 86400. change time.Second with 1000000000.
  replace (now / 1000000000 - 719162 * 86400)
    with (now / 1000000000 + -719162 * 86400) by lia.
  rewrite Z.div_add, Z.div_div by lia.
  replace (1000000000 * 86400) with (86400 * 1000000000) by lia. lia.
Qed.

Lemma sameDay_dayOf t1 t2 : sameDay t1 t2 ↔ dayOf t1 = dayOf t2.
Proof.
  unfold sameDay. rewrite !today_div, !dayOf_div.
  change (time.Hour * 24) with 86400000000000. lia.
Qed.

Lemma dayBucketKey_dayKey now : dayBucketKey_spec now = dayKey (dayOf now).
Proof. reflexivity. Qed.

Lemma bucketDaysAgo_dayKey now d :
  bucketDaysAgo now d = dayKey (dayOf now - d).
Proof. unfold bucketDaysAgo, dayKey, dayOf. f_equal. lia. Qed.

Lemma dayKey_inj D1 D2 : dayKey D1 = dayKey D2 → D1 = D2.
Proof.
  unfold dayKey, secondsPerDay. intros H. apply (inj pretty) in H. lia.
Qed.

(** X1. [UTCTimestampOfTodayRounded] is the UTC midnight at or before the
    clock reading: it lies at most 24 hours back, has no fraction of a
    second, its Unix time is a multiple of 86400, rounding it again
    changes nothing, it grows with the clock, and two readings round to
    the same instant exactly when they are on the same UTC day. *)
Theorem today_is_utc_midnight (now : time.Time) :
  let today := UTCTimestampOfTodayRounded now in
  (today <= now < today + time.Hour * 24)
  ∧ today mod time.Second = 0
  ∧ time.Unix today mod secondsPerDay = 0
  ∧ time.Unix today <= time.Unix now < time.Unix today + secondsPerDay
  ∧ UTCTimestampOfTodayRounded today = today
  ∧ (∀ later, now <= later →
       today <= UTCTimestampOfTodayRounded later)
  ∧ (∀ other, UTCTimestampOfTodayRounded other = today
              ↔ dayOf other = dayOf now).
Proof.
  cbn zeta.
  assert (H1 : UTCTimestampOfTodayRounded now <= now
               < UTCTimestampOfTodayRounded now + time.Hour * 24).
  { unfold UTCTimestampOfTodayRounded, time.Truncate, time.UTC.
    change (time.Hour * 24 <=? 0) with false. cbv iota.
    pose proof (Z.mod_pos_bound now (time.Hour * 24) ltac:(done)). lia. }
  assert (H2 : UTCTimestampOfTodayRounded now mod time.Second = 0).
  { rewrite today_div.
    change (time.Hour * 24) with (86400 * time.Second).
    replace (86400 * time.Second * (now / (86400 * time.Second)))
      with (86400 * (now / (86400 * time.Second)) * time.Second) by lia.
    apply Z_mod_mult. }
  assert (H3 : time.Unix (UTCTimestampOfTodayRounded now) mod secondsPerDay
               = 0).
  { rewrite Unix_today, Z.mul_comm. apply Z_mod_mult. }
  assert (H4 : time.Unix (UTCTimestampOfTodayRounded now) <= time.Unix now
               < time.Unix (UTCTimestampOfTodayRounded now) + secondsPerDay).
  { rewrite Unix_today.
    pose proof (Z.div_mod (time.Unix now) secondsPerDay ltac:(done)).
    pose proof (Z.mod_pos_bound (time.Unix now) secondsPerDay ltac:(done)).
    lia. }
  assert (H5 : UTCTimestampOfTodayRounded (UTCTimestampOfTodayRounded now)
               = UTCTimestampOfTodayRounded now).
  { rewrite (today_div (UTCTimestampOfTodayRounded now)), today_div.
    rewrite (Z.mul_comm (time.Hour * 24) (now / _)), Z.div_mul by done. lia. }
  assert (H6 : ∀ later, now <= later →
                 UTCTimestampOfTodayRounded now
                 <= UTCTimestampOfTodayRounded later).
  { intros later Hlater. rewrite !today_div.
    pose proof (Z.div_le_mono now later (time.Hour * 24) ltac:(done) Hlater).
    change (time.Hour * 24) with 86400000000000 in *. lia. }
  exact (conj H1 (conj H2 (conj H3 (conj H4 (conj H5 (conj H6
           (λ other, sameDay_dayOf other now))))))).
Qed.

(** ** The in-memory backend: frames, round trips, invariants *)

Lemma after_Delete s shortID :
  LocalStorage.Objects (after (Delete shortID) s)
  = delete shortID (LocalStorage.Objects s).
Proof. reflexivity. Qed.

(** X2. A call about one identifier leaves every other identifier as it
    was: its record, hence what a read and a statistics call return for
    it. *)
Theorem Local_calls_are_local (s : LocalStorage.t) (c : call)
    (shortID : string) :
  shortID ≠ target c →
  LocalStorage.Objects (after c s) !! shortID
  = LocalStorage.Objects s !! shortID
  ∧ (LocalStorage.GetStatistics (after c s) shortID).2
    = (LocalStorage.GetStatistics s shortID).2
  ∧ (∀ now, (LocalStorage.GetURL now (after c s) shortID).2
            = (LocalStorage.GetURL now s shortID).2).
Proof.
  intros Hne.
  assert (Hsame : LocalStorage.Objects (after c s) !! shortID
                  = LocalStorage.Objects s !! shortID).
  { destruct c as [id url expiration|now id|id|id]; cbn [target] in Hne.
    - rewrite after_Save.
      destruct (LocalStorage.Objects s !! id); [done|].
      by rewrite lookup_insert_ne.
    - rewrite after_Get.
      destruct (LocalStorage.Objects s !! id); [|done].
      by rewrite lookup_insert_ne.
    - rewrite after_Delete. by rewrite lookup_delete_ne.
    - by rewrite after_Statistics. }
  split; [done|]. split.
  - unfold LocalStorage.GetStatistics. rewrite Hsame.
    by destruct (LocalStorage.Objects s !! shortID).
  - intros now. unfold LocalStorage.GetURL. rewrite Hsame.
    by destruct (LocalStorage.Objects s !! shortID).
Qed.

Lemma Local_calls_are_local_witness :
  let s := (LocalStorage.SaveURL LocalStorage.new "111" "http://a.com" 0).1 in
  "111"%string ≠ target (Delete "222")
  ∧ LocalStorage.Objects (after (Delete "222") s) !! "111"%string
    = LocalStorage.Objects s !! "111"%string.
Proof.
  cbn zeta.
  assert (Hne : "111"%string ≠ target (Delete "222"))
    by (cbn [target]; discriminate).
  split; [exact Hne|].
  pose proof (Local_calls_are_local
                (LocalStorage.SaveURL LocalStorage.new "111" "http://a.com" 0).1
                (Delete "222") "111" Hne) as (Hsame & _).
  exact Hsame.
Defined.

(** X3. No call other than a delete changes the identifier, the URL, the
    version or the expiration of a record that is stored: the first
    writer's values stay until the record is deleted. *)
Theorem Local_record_is_immutable (s : LocalStorage.t) (c : call)
    (shortID : string) (object : URLObject) :
  isDelete c = false →
  LocalStorage.Objects s !! shortID = Some object →
  ∃ object',
    LocalStorage.Objects (after c s) !! shortID = Some object'
    ∧ ShortID object' = ShortID object
    ∧ URL object' = URL object
    ∧ Version object' = Version object
    ∧ Expiration object' = Expiration object.
Proof.
  intros Hc Hobj.
  destruct c as [id url expiration|now id|id|id]; [| |done|].
  - rewrite after_Save.
    destruct (LocalStorage.Objects s !! id) eqn:Hid; [by exists object|].
    exists object. rewrite lookup_insert_ne by congruence. done.
  - rewrite after_Get.
    destruct (LocalStorage.Objects s !! id) as [o|] eqn:Hid;
      [|by exists object].
    destruct (decide (id = shortID)) as [->|Hne].
    + assert (o = object) as -> by congruence.
      exists (visited now object). by rewrite lookup_insert_eq.
    + exists object. by rewrite lookup_insert_ne.
  - rewrite after_Statistics. by exists object.
Qed.

Lemma Local_record_is_immutable_witness :
  let now := time.of_unix 1700000000 0 in
  let s := (LocalStorage.SaveURL LocalStorage.new "111" "http://a.com" 9).1 in
  isDelete (Get now "111") = false
  ∧ LocalStorage.Objects s !! "111"%string
    = Some (created "111" "http://a.com" 9)
  ∧ ∃ object',
      LocalStorage.Objects (after (Get now "111") s) !! "111"%string
      = Some object'
      ∧ URL object' = "http://a.com"%string.
Proof.
  cbn zeta. split; [reflexivity|]. split; [reflexivity|].
  destruct (Local_record_is_immutable
              (LocalStorage.SaveURL LocalStorage.new "111" "http://a.com" 9).1
              (Get (time.of_unix 1700000000 0) "111") "111"
              (created "111" "http://a.com" 9) eq_refl eq_refl)
    as (object' & Hlook & _ & Hurl & _).
  exists object'. split; [exact Hlook|exact Hurl].
Defined.

(** X4. Create, then read: after a create for a free identifier a read
    returns the URL that was given, whatever it is, the record holds the
    URL and the expiration of the create, and its statistics are one
    bucket, the day of the read, with count 1. *)
Theorem Local_save_then_get (now : time.Time) (s : LocalStorage.t)
    (shortID url : string) (expiration : Z) :
  LocalStorage.Objects s !! shortID = None →
  let s1 := (LocalStorage.SaveURL s shortID url expiration).1 in
  let s2 := (LocalStorage.GetURL now s1 shortID).1 in
  (LocalStorage.GetStatistics s1 shortID).2 = (∅, None)
  ∧ (LocalStorage.GetURL now s1 shortID).2 = (url, None)
  ∧ LocalStorage.Objects s2 !! shortID
    = Some {| ShortID := shortID; URL := url; Version := 0;
              Expiration := expiration;
              Usage := {[dayBucketKey_spec now := 1]} |}
  ∧ (LocalStorage.GetStatistics s2 shortID).2
    = ({[dayBucketKey_spec now := 1]}, None).
Proof.
  intros Hfresh. cbn zeta.
  rewrite Local_SaveURL_fresh by done. cbn [fst].
  set (s1 := LocalStorage.mk _).
  assert (H1 : LocalStorage.Objects s1 !! shortID
               = Some (created shortID url expiration))
    by apply lookup_insert_eq.
  rewrite (Local_GetStatistics_hit _ _ _ H1), (Local_GetURL_hit _ _ _ _ H1).
  cbn [fst snd].
  set (s2 := LocalStorage.mk _).
  assert (H2 : LocalStorage.Objects s2 !! shortID
               = Some (visited now (created shortID url expiration)))
    by apply lookup_insert_eq.
  rewrite (Local_GetStatistics_hit _ _ _ H2), H2. cbn [snd].
  rewrite visited_created.
  by split_and!.
Qed.

Lemma Local_save_then_get_witness :
  let now := time.of_unix 1700000000 0 in
  let s1 := (LocalStorage.SaveURL LocalStorage.new "abc" "http://x.com" 0).1 in
  LocalStorage.Objects LocalStorage.new !! "abc"%string = None
  ∧ (LocalStorage.GetURL now s1 "abc").2 = ("http://x.com"%string, None).
Proof.
  cbn zeta. split; [reflexivity|].
  pose proof (Local_save_then_get (time.of_unix 1700000000 0)
                LocalStorage.new "abc" "http://x.com" 0 eq_refl)
    as (_ & Hget & _).
  exact Hget.
Defined.

(** X5. A delete removes the record and nothing else: afterwards a read
    of the identifier is a miss, its statistics are empty, a second
    delete changes nothing, and a new create for the identifier stores
    the new URL with empty statistics (the old URL and counts are
    gone). *)
Theorem Local_delete_forgets (now : time.Time) (s : LocalStorage.t)
    (shortID url : string) (expiration : Z) :
  let s' := (LocalStorage.DeleteURL s shortID).1 in
  LocalStorage.Objects s' = delete shortID (LocalStorage.Objects s)
  ∧ LocalStorage.GetURL now s' shortID = (s', (""%string, None))
  ∧ LocalStorage.GetStatistics s' shortID = (s', (∅, None))
  ∧ LocalStorage.DeleteURL s' shortID = (s', None)
  ∧ LocalStorage.Objects (LocalStorage.SaveURL s' shortID url expiration).1
      !! shortID
    = Some (created shortID url expiration).
Proof.
  cbn zeta.
  set (s' := (LocalStorage.DeleteURL s shortID).1).
  assert (Hgone : LocalStorage.Objects s' !! shortID = None)
    by apply lookup_delete_eq.
  split_and!.
  - done.
  - by apply Local_GetURL_miss.
  - by apply Local_GetStatistics_miss.
  - by apply Local_DeleteURL_miss.
  - rewrite Local_SaveURL_fresh by done. apply lookup_insert_eq.
Qed.

(** X6. In every state the in-memory backend reaches from the empty
    storage, a record sits under its own identifier with version 0, and
    every key of its usage mapping is the decimal Unix time of a UTC
    midnight: a multiple of 86400, so no bucket is finer than a day. *)
Theorem Local_records_well_formed (n : nat) (s : LocalStorage.t)
    (shortID : string) (object : URLObject) :
  reachable n s →
  LocalStorage.Objects s !! shortID = Some object →
  ShortID object = shortID
  ∧ Version object = 0
  ∧ ∀ key count, Usage object !! key = Some count → ∃ D, key = dayKey D.
Proof.
  intros Hreach. revert shortID object.
  induction Hreach as [|n s c Hreach IH]; intros shortID object.
  - unfold LocalStorage.new. cbn [LocalStorage.Objects].
    by rewrite lookup_empty.
  - destruct c as [id url expiration|now id|id|id].
    + rewrite after_Save.
      destruct (LocalStorage.Objects s !! id) eqn:Hid; [apply IH|].
      rewrite lookup_insert.
      destruct (decide (id = shortID)) as [->|_]; [|apply IH].
      intros [= <-]. unfold created. cbn [ShortID Version Usage].
      split_and!; [done..|]. intros key count. by rewrite lookup_empty.
    + rewrite after_Get.
      destruct (LocalStorage.Objects s !! id) as [o|] eqn:Hid; [|apply IH].
      rewrite lookup_insert.
      destruct (decide (id = shortID)) as [->|_]; [|apply IH].
      intros [= <-]. destruct (IH _ _ Hid) as (Hkey & Hversion & Hdays).
      split_and!; [done..|].
      intros key count [[-> _]|[_ Hold]]%visited_lookup.
      * by exists (dayOf now).
      * by eapply Hdays.
    + rewrite after_Delete, lookup_delete.
      destruct (decide (id = shortID)); [done|apply IH].
    + rewrite after_Statistics. apply IH.
Qed.

Lemma Local_records_well_formed_witness :
  let now := time.of_unix 1700000000 0 in
  let s := after (Get now "abc")
             (after (Save "abc" "http://x.com" 0) LocalStorage.new) in
  let object := visited now (created "abc" "http://x.com" 0) in
  reachable 2 s
  ∧ LocalStorage.Objects s !! "abc"%string = Some object
  ∧ ShortID object = "abc"%string.
Proof.
  cbn zeta.
  assert (Hreach : reachable 2
            (after (Get (time.of_unix 1700000000 0) "abc")
               (after (Save "abc" "http://x.com" 0) LocalStorage.new)))
    by (do 2 apply reachable_call; apply reachable_new).
  split; [exact Hreach|]. split; [reflexivity|].
  pose proof (Local_records_well_formed 2 _ "abc"
                (visited (time.of_unix 1700000000 0)
                   (created "abc" "http://x.com" 0))
                Hreach eq_refl) as (Hkey & _).
  exact Hkey.
Defined.

(** After [n] calls every bucket that is present counts at least one
    visit, as long as [n] is an [int64]. *)
Lemma counts_positive n s :
  reachable n s →
  Z.of_nat n <= Int64.max_int →
  ∀ shortID object key count,
    LocalStorage.Objects s !! shortID = Some object →
    Usage object !! key = Some count →
    1 <= count.
Proof.
  induction 1 as [|n s c Hreach IH]; intros Hn shortID object key count.
  - unfold LocalStorage.new. cbn [LocalStorage.Objects].
    by rewrite lookup_empty.
  - assert (Hprev : ∀ object,
              LocalStorage.Objects s !! shortID = Some object →
              Usage object !! key = Some count → 1 <= count).
    { intros o Ho Hk. by eapply (IH ltac:(lia)). }
    pose proof (counts_bounded n s Hreach ltac:(lia)) as Hbound.
    destruct c as [id url expiration|now id|id|id].
    + rewrite after_Save.
      destruct (LocalStorage.Objects s !! id) eqn:Hid; [apply Hprev|].
      rewrite lookup_insert.
      destruct (decide (id = shortID)) as [->|_]; [|apply Hprev].
      intros [= <-]. unfold created. cbn [Usage]. by rewrite lookup_empty.
    + rewrite after_Get.
      destruct (LocalStorage.Objects s !! id) as [o|] eqn:Hid; [|apply Hprev].
      rewrite lookup_insert.
      destruct (decide (id = shortID)) as [->|_]; [|apply Hprev].
      intros [= <-] [[-> ->]|[_ Hk]]%visited_lookup; [|by eapply Hprev].
      assert (0 <= index (Usage o) (dayBucketKey_spec now) <= Z.of_nat n)
        as Hold.
      { unfold index.
        destruct (Usage o !! dayBucketKey_spec now) as [v|] eqn:Hv;
          cbn [default]; [by eapply Hbound|lia]. }
      rewrite add_small; [lia|].
      unfold Int64.in_range, Int64.min_int, Int64.max_int in *. lia.
    + rewrite after_Delete, lookup_delete.
      destruct (decide (id = shortID)); [done|apply Hprev].
    + rewrite after_Statistics. apply Hprev.
Qed.

(** X7. "Days with no usage are not present in the map": in a state
    reached by at most 2^63 - 1 calls, every bucket that is present holds a
    count between 1 and the number of calls made, so a bucket exists only
    for a day with a visit and [GetStatistics] never reports a zero or a
    negative count. *)
Theorem Local_buckets_count_visits (n : nat) (s : LocalStorage.t)
    (shortID : string) (object : URLObject) (key : string) (count : Z) :
  reachable n s →
  Z.of_nat n <= Int64.max_int →
  LocalStorage.Objects s !! shortID = Some object →
  Usage object !! key = Some count →
  1 <= count <= Z.of_nat n
  ∧ (LocalStorage.GetStatistics s shortID).2 = (Usage object, None).
Proof.
  intros Hreach Hn Hobj Hkey. split; [split|].
  - by eapply counts_positive.
  - by eapply counts_bounded.
  - by rewrite (Local_GetStatistics_hit _ _ object).
Qed.

Lemma Local_buckets_count_visits_witness :
  let now := time.of_unix 1700000000 0 in
  let s := after (Get now "abc")
             (after (Save "abc" "http://x.com" 0) LocalStorage.new) in
  let object := visited now (created "abc" "http://x.com" 0) in
  reachable 2 s
  ∧ Z.of_nat 2 <= Int64.max_int
  ∧ LocalStorage.Objects s !! "abc"%string = Some object
  ∧ Usage object !! dayBucketKey_spec now = Some 1
  ∧ 1 <= 1 <= Z.of_nat 2.
Proof.
  cbn zeta.
  assert (Hreach : reachable 2
            (after (Get (time.of_unix 1700000000 0) "abc")
               (after (Save "abc" "http://x.com" 0) LocalStorage.new)))
    by (do 2 apply reachable_call; apply reachable_new).
  assert (Hn : Z.of_nat 2 <= Int64.max_int) by (by vm_compute).
  split; [exact Hreach|]. split; [exact Hn|].
  split; [reflexivity|]. split; [reflexivity|].
  pose proof (Local_buckets_count_visits 2 _ "abc"
                (visited (time.of_unix 1700000000 0)
                   (created "abc" "http://x.com" 0))
                (dayBucketKey_spec (time.of_unix 1700000000 0)) 1
                Hreach Hn eq_refl eq_refl) as (Hcount & _).
  exact Hcount.
Defined.

(** ** Counting visits *)

Lemma index_lookup (usage : gmap string Z) key count :
  usage !! key = Some count → index usage key = count.
Proof. unfold index. by intros ->. Qed.

Lemma allBuckets_delete (usage : gmap string Z) key :
  sumZ (allBuckets usage)
  = index usage key + sumZ (allBuckets (delete key usage)).
Proof.
  destruct (usage !! key) as [count|] eqn:Hkey.
  - rewrite <- (insert_delete_id usage key count) at 1 by done.
    rewrite allBuckets_insert by apply lookup_delete_eq.
    by rewrite (index_lookup _ _ _ Hkey).
  - rewrite delete_id by done. unfold index. rewrite Hkey. cbn [default]. lia.
Qed.

Lemma allBuckets_update (usage : gmap string Z) key count :
  sumZ (allBuckets (<[key := count]> usage))
  = sumZ (allBuckets usage) - index usage key + count.
Proof.
  rewrite (allBuckets_delete (<[key := count]> usage) key).
  rewrite (allBuckets_delete usage key).
  rewrite delete_insert_eq, index_insert, decide_True by done. lia.
Qed.

Lemma visitsOn_cons D t ts :
  visitsOn D (t :: ts)
  = (if decide (dayOf t = D) then 1 else 0) + visitsOn D ts.
Proof.
  unfold visitsOn. rewrite filter_cons.
  destruct (decide (dayOf t = D)); cbn [length]; lia.
Qed.

Lemma visitsBetween_cons lo hi t ts :
  visitsBetween lo hi (t :: ts)
  = (if decide (lo <= dayOf t <= hi) then 1 else 0) + visitsBetween lo hi ts.
Proof.
  unfold visitsBetween. rewrite filter_cons.
  destruct (decide (lo <= dayOf t <= hi)); cbn [length]; lia.
Qed.

Lemma visitsBetween_range lo hi ts :
  0 <= visitsBetween lo hi ts <= Z.of_nat (length ts).
Proof.
  unfold visitsBetween.
  pose proof (length_filter (λ t, lo <= dayOf t <= hi) ts). lia.
Qed.

(** The visits of the seven days up to [D], day by day. *)
Lemma week_of_visits D ts :
  sumZ (map (λ d : nat, visitsOn (D - Z.of_nat d) ts) (seq 0 7))
  = visitsBetween (D - 6) D ts.
Proof.
  induction ts as [|t ts IH].
  - reflexivity.
  - rewrite visitsBetween_cons, <- IH.
    cbn [seq map sumZ foldr]. rewrite !visitsOn_cons.
    repeat case_decide; lia.
Qed.

Lemma visited_index t object D :
  index (Usage (visited t object)) (dayKey D)
  = if decide (dayOf t = D)
    then Int64.add (index (Usage object) (dayKey D)) 1
    else index (Usage object) (dayKey D).
Proof.
  unfold visited. cbn [Usage]. rewrite index_insert, dayBucketKey_dayKey.
  destruct (decide (dayKey (dayOf t) = dayKey D)) as [Heq|Hne].
  - apply dayKey_inj in Heq as Heq'. rewrite decide_True by done.
    by rewrite Heq.
  - rewrite decide_False; [done|]. intros Heq. apply Hne. by rewrite Heq.
Qed.

(** A visit adds one to one bucket, as long as no count is at the
    largest [int64]. *)
Lemma visited_bounds t object B :
  (∀ key, 0 <= index (Usage object) key <= B) →
  B < Int64.max_int →
  (∀ key, 0 <= index (Usage (visited t object)) key <= B + 1)
  ∧ sumZ (allBuckets (Usage (visited t object)))
    = sumZ (allBuckets (Usage object)) + 1
  ∧ (∀ D, index (Usage (visited t object)) (dayKey D)
          = index (Usage object) (dayKey D)
            + if decide (dayOf t = D) then 1 else 0).
Proof.
  intros Hbound HB.
  assert (Hadd : ∀ key, Int64.add (index (Usage object) key) 1
                        = index (Usage object) key + 1).
  { intros key. apply add_small. specialize (Hbound key).
    unfold Int64.in_range, Int64.min_int, Int64.max_int in *. lia. }
  split_and!.
  - intros key. unfold visited. cbn [Usage]. rewrite index_insert.
    destruct (decide _) as [<-|_].
    + rewrite Hadd. specialize (Hbound (dayBucketKey_spec t)). lia.
    + specialize (Hbound key). lia.
  - unfold visited. cbn [Usage]. rewrite allBuckets_update, Hadd. lia.
  - intros D. rewrite visited_index.
    destruct (decide (dayOf t = D)); [rewrite Hadd|]; lia.
Qed.

Lemma visitedAll_counts ts : ∀ object B,
  (∀ key, 0 <= index (Usage object) key <= B) →
  B + Z.of_nat (length ts) <= Int64.max_int →
  sumZ (allBuckets (Usage (visitedAll ts object)))
  = sumZ (allBuckets (Usage object)) + Z.of_nat (length ts)
  ∧ (∀ D, index (Usage (visitedAll ts object)) (dayKey D)
          = index (Usage object) (dayKey D) + visitsOn D ts).
Proof.
  induction ts as [|t ts IH]; intros object B Hbound HB.
  - cbn [visitedAll foldl length]. split; [lia|].
    intros D. unfold visitsOn. cbn. lia.
  - cbn [length] in HB.
    destruct (visited_bounds t object B Hbound ltac:(lia))
      as (Hbound' & Hsum & Hindex).
    destruct (IH (visited t object) (B + 1) Hbound' ltac:(lia))
      as (IHsum & IHindex).
    change (visitedAll (t :: ts) object)
      with (visitedAll ts (visited t object)).
    split.
    + rewrite IHsum, Hsum. cbn [length]. lia.
    + intros D. rewrite IHindex, Hindex, visitsOn_cons. lia.
Qed.

Lemma visits_visitedAll ts : ∀ s shortID object,
  LocalStorage.Objects s !! shortID = Some object →
  LocalStorage.Objects (visits ts s shortID)
  = <[shortID := visitedAll ts object]> (LocalStorage.Objects s).
Proof.
  induction ts as [|t ts IH]; intros s shortID object Hobj.
  - cbn [visits visitedAll foldl]. by rewrite insert_id.
  - cbn [visits]. rewrite (Local_GetURL_hit _ _ _ object) by done.
    cbn [fst].
    rewrite (IH _ shortID (visited t object)) by apply lookup_insert_eq.
    cbn [LocalStorage.Objects]. by rewrite insert_insert_eq.
Qed.

(** X8. The statistics count the redirects.  After a create for a free
    identifier and one read at each clock reading of a list (at most
    2^63 - 1 of them, on any days, in any order), the roll-up computed on
    a day is: lastDay, the number of reads on that day; lastWeek, the
    number of reads on that day and the six days before; allTime, the
    number of reads. *)
Theorem statistics_count_visits (now1 now2 : time.Time) (s : LocalStorage.t)
    (shortID url : string) (expiration : Z) (ts : list time.Time) :
  LocalStorage.Objects s !! shortID = None →
  Z.of_nat (length ts) <= Int64.max_int →
  sameDay now1 now2 →
  let s' := visits ts (LocalStorage.SaveURL s shortID url expiration).1
              shortID in
  ∃ usage,
    LocalStorage.GetStatistics s' shortID = (s', (usage, None))
    ∧ aggregate now1 now2 usage
      = (visitsOn (dayOf now2) ts,
         visitsBetween (dayOf now2 - 6) (dayOf now2) ts,
         Z.of_nat (length ts)).
Proof.
  intros Hfresh Hlen Hday. cbn zeta.
  rewrite Local_SaveURL_fresh by done. cbn [fst].
  set (s' := visits ts _ shortID).
  set (object := visitedAll ts (created shortID url expiration)).
  assert (Hobj : LocalStorage.Objects s' !! shortID = Some object).
  { subst s'.
    rewrite (visits_visitedAll ts _ _ (created shortID url expiration))
      by apply lookup_insert_eq.
    apply lookup_insert_eq. }
  exists (Usage object). split; [by apply Local_GetStatistics_hit|].
  destruct (visitedAll_counts ts (created shortID url expiration) 0)
    as (Hsum & Hindex).
  { intros key. unfold created. cbn [Usage]. rewrite index_empty. lia. }
  { lia. }
  fold object in Hsum, Hindex.
  assert (Hzero : ∀ D, index (Usage (created shortID url expiration)) (dayKey D)
                       = 0)
    by (intros D; unfold created; cbn [Usage]; apply index_empty).
  rewrite (surjective_pairing (aggregate now1 now2 (Usage object))).
  rewrite (surjective_pairing (aggregate now1 now2 (Usage object)).1).
  rewrite aggregate_lastWeek, aggregate_allTime, aggregate_lastDay by done.
  rewrite dayBucketKey_dayKey, Hindex, Hzero, Hsum.
  unfold created at 1. cbn [Usage]. rewrite allBuckets_empty. cbn [sumZ foldr].
  assert (Hweek : sumZ (weekBuckets now2 (Usage object))
                  = visitsBetween (dayOf now2 - 6) (dayOf now2) ts).
  { rewrite <- week_of_visits. unfold weekBuckets. f_equal.
    apply map_ext. intros d.
    by rewrite bucketDaysAgo_dayKey, Hindex, Hzero. }
  rewrite Hweek.
  pose proof (visitsBetween_range (dayOf now2 - 6) (dayOf now2) ts).
  rewrite (wrap_in_range (visitsBetween _ _ _)), (wrap_in_range (0 + _))
    by (unfold Int64.in_range, Int64.min_int, Int64.max_int in *; lia).
  by rewrite !Z.add_0_l.
Qed.

Lemma statistics_count_visits_witness :
  let now := time.of_unix 1700000000 0 in
  let ts := [time.of_unix 1690000000 0; time.of_unix 1699900000 0;
             time.of_unix 1700000000 0; time.of_unix 1700000060 0] in
  let s' := visits ts (LocalStorage.SaveURL LocalStorage.new
                         "abc" "http://x.com" 0).1 "abc" in
  LocalStorage.Objects LocalStorage.new !! "abc"%string = None
  ∧ Z.of_nat (length ts) <= Int64.max_int
  ∧ sameDay now now
  ∧ (visitsOn (dayOf now) ts, visitsBetween (dayOf now - 6) (dayOf now) ts,
     Z.of_nat (length ts)) = (2, 3, 4)
  ∧ ∃ usage,
      LocalStorage.GetStatistics s' "abc" = (s', (usage, None))
      ∧ aggregate now now usage
        = (visitsOn (dayOf now) ts,
           visitsBetween (dayOf now - 6) (dayOf now) ts,
           Z.of_nat (length ts)).
Proof.
  cbn zeta.
  assert (Hlen : Z.of_nat (length [time.of_unix 1690000000 0;
                                    time.of_unix 1699900000 0;
                                    time.of_unix 1700000000 0;
                                    time.of_unix 1700000060 0])
                 <= Int64.max_int) by (by vm_compute).
  split; [reflexivity|]. split; [exact Hlen|]. split; [reflexivity|].
  split; [by vm_compute|].
  exact (statistics_count_visits (time.of_unix 1700000000 0)
           (time.of_unix 1700000000 0) LocalStorage.new "abc" "http://x.com" 0
           _ eq_refl Hlen eq_refl).
Defined.

(** ** The aggregator, for any two clock readings *)

Lemma aggregate_lastWeek_general now1 now2 usage :
  (aggregate now1 now2 usage).1.2
  = Int64.wrap
      (index usage (dayKey (dayOf now2))
       + sumZ (map (λ j : nat, index usage (dayKey (dayOf now1 - Z.of_nat j)))
                 (seq 1 6))).
Proof.
  unfold aggregate. cbn [fst snd].
  rewrite <- (wrap_in_range (weekLoop 6 _ _ _))
    by apply (weekLoop_S_range 5).
  rewrite weekLoop_sum. unfold strconv.Itoa, int.
  rewrite !Unix_today. fold (dayOf now1) (dayOf now2). fold (dayKey (dayOf now2)).
  do 3 f_equal. apply map_ext. intros j. unfold dayKey. do 2 f_equal. lia.
Qed.

(** X9. What [GetUsageStats] computes for any two clock readings: lastDay
    is the bucket of the day of the second reading, lastWeek adds to it the
    buckets of the six days before the day of the first reading.  When
    midnight passes between the readings, the bucket of the day that just
    ended is therefore not counted, whatever it holds, and the bucket
    seven days before the new day is. *)
Theorem aggregate_reads_the_clock_twice (now1 now2 : time.Time)
    (usage : gmap string Z) :
  (aggregate now1 now2 usage).1.1 = index usage (dayKey (dayOf now2))
  ∧ (aggregate now1 now2 usage).1.2
    = Int64.wrap
        (index usage (dayKey (dayOf now2))
         + sumZ (map (λ j : nat,
                        index usage (dayKey (dayOf now1 - Z.of_nat j)))
                   (seq 1 6)))
  ∧ (dayOf now2 = dayOf now1 + 1 →
     (∀ count,
        (aggregate now1 now2 (<[dayKey (dayOf now2 - 1) := count]> usage)).1.2
        = (aggregate now1 now2 usage).1.2)
     ∧ (aggregate now1 now2 usage).1.2
       = Int64.wrap
           (index usage (dayKey (dayOf now2))
            + sumZ (map (λ d : nat,
                           index usage (dayKey (dayOf now2 - Z.of_nat d)))
                      (seq 2 6)))).
Proof.
  split; [|split].
  - by rewrite aggregate_lastDay, dayBucketKey_dayKey.
  - apply aggregate_lastWeek_general.
  - intros Hnext. split.
    + intros count. rewrite !aggregate_lastWeek_general.
      rewrite index_insert, decide_False
        by (intros Heq%dayKey_inj; lia).
      do 3 f_equal. apply map_ext_in. intros j Hj%in_seq.
      rewrite index_insert, decide_False; [done|].
      intros Heq%dayKey_inj. lia.
    + rewrite aggregate_lastWeek_general. do 2 f_equal.
      rewrite <- (seq_shift 6 1), map_map. f_equal.
      apply map_ext. intros j. do 2 f_equal. lia.
Qed.

Lemma allBuckets_nonneg (usage : gmap string Z) :
  (∀ key count, usage !! key = Some count → 0 <= count) →
  0 <= sumZ (allBuckets usage).
Proof.
  induction usage as [|key count usage Hfresh IH] using map_ind.
  - by rewrite allBuckets_empty.
  - intros Hpos. rewrite allBuckets_insert by done.
    assert (0 <= count) by (eapply Hpos; apply lookup_insert_eq).
    assert (0 <= sumZ (allBuckets usage)); [|lia].
    apply IH. intros key' count' Hkey'. apply (Hpos key').
    rewrite lookup_insert_ne; [done|]. intros ->. congruence.
Qed.

Lemma index_nonneg (usage : gmap string Z) key :
  (∀ key count, usage !! key = Some count → 0 <= count) →
  0 <= index usage key.
Proof.
  intros Hpos. unfold index.
  destruct (usage !! key) eqn:H; cbn [default]; [by eapply Hpos|lia].
Qed.

(** The buckets under distinct keys are part of all the buckets. *)
Lemma some_buckets_le_all keys : ∀ usage : gmap string Z,
  NoDup keys →
  (∀ key count, usage !! key = Some count → 0 <= count) →
  sumZ (map (index usage) keys) <= sumZ (allBuckets usage).
Proof.
  induction keys as [|key keys IH]; intros usage Hdup Hpos.
  - cbn [map sumZ foldr]. by apply allBuckets_nonneg.
  - apply NoDup_cons in Hdup as [Hnotin Hdup].
    rewrite (allBuckets_delete usage key). cbn [map sumZ foldr].
    assert (Hrest : map (index usage) keys
                    = map (index (delete key usage)) keys).
    { apply map_ext_in. intros key' Hin%list_elem_of_In.
      unfold index. rewrite lookup_delete_ne; [done|]. by intros ->. }
    fold (sumZ (map (index usage) keys)). rewrite Hrest.
    assert (sumZ (map (index (delete key usage)) keys)
            <= sumZ (allBuckets (delete key usage))); [|lia].
    apply IH; [done|]. intros key' count' Hkey'.
    apply lookup_delete_Some in Hkey' as [_ Hkey']. by eapply Hpos.
Qed.

Lemma weekKeys_NoDup now :
  NoDup (map (λ d : nat, bucketDaysAgo now (Z.of_nat d)) (seq 0 7)).
Proof.
  assert (Hgen : ∀ l : list nat, NoDup l →
            NoDup (map (λ d : nat, bucketDaysAgo now (Z.of_nat d)) l)).
  { induction l as [|d l IH]; intros Hdup; [constructor|].
    apply NoDup_cons in Hdup as [Hnotin Hdup]. cbn [map].
    apply NoDup_cons. split; [|by apply IH].
    intros Hin%list_elem_of_In%in_map_iff. destruct Hin as (d' & Heq & Hin).
    apply bucketDaysAgo_inj in Heq. apply Nat2Z.inj in Heq. subst d'.
    by apply Hnotin, list_elem_of_In. }
  apply Hgen, NoDup_seq.
Qed.

(** X10. For a usage mapping without negative counts whose total fits an
    [int64], and both clock readings on one UTC day, the three figures
    are ordered: 0 <= lastDay <= lastWeek <= allTime, and none of them
    has wrapped around. *)
Theorem statistics_are_ordered (now1 now2 : time.Time)
    (usage : gmap string Z) :
  sameDay now1 now2 →
  (∀ key count, usage !! key = Some count → 0 <= count) →
  sumZ (allBuckets usage) <= Int64.max_int →
  let '(lastDay, lastWeek, allTime) := aggregate now1 now2 usage in
  0 <= lastDay <= lastWeek
  ∧ lastWeek <= allTime
  ∧ lastWeek = sumZ (weekBuckets now2 usage)
  ∧ allTime = sumZ (allBuckets usage).
Proof.
  intros Hday Hpos Hfit.
  rewrite (surjective_pairing (aggregate now1 now2 usage)).
  rewrite (surjective_pairing (aggregate now1 now2 usage).1).
  rewrite aggregate_lastWeek, aggregate_allTime, aggregate_lastDay by done.
  pose proof (some_buckets_le_all _ usage (weekKeys_NoDup now2) Hpos) as Hle.
  rewrite map_map in Hle. fold (weekBuckets now2 usage) in Hle.
  pose proof (allBuckets_nonneg usage Hpos) as Hall.
  assert (Hweek : index usage (dayBucketKey_spec now2)
                  <= sumZ (weekBuckets now2 usage)).
  { unfold weekBuckets. cbn [seq map sumZ foldr].
    rewrite bucketDaysAgo_0.
    pose proof (λ d, index_nonneg usage (bucketDaysAgo now2 d) Hpos) as H.
    pose proof (H (Z.of_nat 1)). pose proof (H (Z.of_nat 2)).
    pose proof (H (Z.of_nat 3)). pose proof (H (Z.of_nat 4)).
    pose proof (H (Z.of_nat 5)). pose proof (H (Z.of_nat 6)). lia. }
  pose proof (index_nonneg usage (dayBucketKey_spec now2) Hpos) as Hday0.
  rewrite !wrap_in_range
    by (unfold Int64.in_range, Int64.min_int, Int64.max_int in *; lia).
  lia.
Qed.

Lemma statistics_are_ordered_witness :
  let now := time.of_unix 1700000000 0 in
  let usage : gmap string Z :=
    <[bucketDaysAgo now 0 := 1]> (<[bucketDaysAgo now 3 := 2]>
      (<[bucketDaysAgo now 30 := 4]> ∅)) in
  sameDay now now
  ∧ aggregate now now usage = (1, 3, 7)
  ∧ let '(lastDay, lastWeek, allTime) := aggregate now now usage in
    0 <= lastDay <= lastWeek ∧ lastWeek <= allTime.
Proof.
  cbn zeta. split; [reflexivity|]. split; [by vm_compute|].
  set (now := time.of_unix 1700000000 0).
  set (usage := <[bucketDaysAgo now 0 := 1]> _).
  assert (Hpos : ∀ key count, usage !! key = Some count → 0 <= count).
  { intros key count. subst usage.
    rewrite !lookup_insert.
    repeat case_decide; try (intros [= <-]; lia); try by rewrite lookup_empty. }
  assert (Hfit : sumZ (allBuckets usage) <= Int64.max_int)
    by (by vm_compute).
  pose proof (statistics_are_ordered now now usage eq_refl Hpos Hfit) as H.
  destruct (aggregate now now usage) as [[lastDay lastWeek] allTime].
  destruct H as (H1 & H2 & _). split; [exact H1|exact H2].
Defined.

(** ** The handlers over the in-memory backend *)

Lemma sameDay_spec t1 t2 :
  sameDay t1 t2 → dayBucketKey_spec t1 = dayBucketKey_spec t2.
Proof. intros H. by rewrite <- !todayKey_spec, (sameDay_key _ _ H). Qed.

Lemma aggregate_empty now1 now2 : aggregate now1 now2 ∅ = (0, 0, 0).
Proof.
  rewrite (surjective_pairing (aggregate now1 now2 ∅)).
  rewrite (surjective_pairing (aggregate now1 now2 ∅).1).
  rewrite aggregate_lastWeek_general, aggregate_allTime, aggregate_lastDay.
  rewrite allBuckets_empty. cbn [seq map sumZ foldr].
  by rewrite !index_empty.
Qed.

(** X11. The redirect handler over the in-memory backend answers 307 with
    the stored URL in [Location] exactly when the identifier has a record
    with a non-empty URL, and 404 otherwise; it never answers 500.  Every
    request for a stored identifier counts as a visit, also the one that
    is answered 404 because the stored URL is empty. *)
Theorem Local_HandleRedirect (w : world) (s : LocalStorage.t)
    (shortID : string) :
  shortieAPI.HandleRedirect w s shortID
  = Returned
      (after (Get (now w) shortID) s,
       match LocalStorage.Objects s !! shortID with
       | Some object =>
           if decide (URL object = ""%string)
           then mkResponse http.StatusNotFound None (Text "Not Found")
           else mkResponse http.StatusTemporaryRedirect (Some (URL object))
                           NoBody
       | None => mkResponse http.StatusNotFound None (Text "Not Found")
       end)
  ∧ LocalStorage.Objects (after (Get (now w) shortID) s)
    = match LocalStorage.Objects s !! shortID with
      | Some object =>
          <[shortID := visited (now w) object]> (LocalStorage.Objects s)
      | None => LocalStorage.Objects s
      end.
Proof.
  split; [|apply after_Get].
  unfold shortieAPI.HandleRedirect, GetURL, LocalStorage_urlStorage, obind.
  cbn [after].
  destruct (LocalStorage.Objects s !! shortID) as [object|] eqn:Hobj.
  - rewrite (Local_GetURL_hit _ _ _ object) by done.
    by destruct (decide (URL object = ""%string)).
  - by rewrite Local_GetURL_miss.
Qed.

(** X12. [CreateURL] never overwrites.  When the identifier of the URL is
    already taken, by the same URL or by another one, the storage stays
    as it is and the answer is the same 200 with the same short URL as
    for a first create: a collision between two URLs is silent, and the
    short URL keeps redirecting to the first one. *)
Theorem CreateURL_first_writer_wins (w : world) (s : LocalStorage.t)
    (url : string) (expiration : Z) (shortID : string) (object : URLObject) :
  shortIDOf url = Some shortID →
  LocalStorage.Objects s !! shortID = Some object →
  shortieAPI.CreateURL w s (BindOk url expiration)
  = Returned (s, mkResponse http.StatusOK None
                   (JSONShortUrl ("http://localhost:8421/shortie/" +:+ shortID)))
  ∧ (∀ w', LocalStorage.GetURL (now w') s shortID
           = (after (Get (now w') shortID) s, (URL object, None))).
Proof.
  intros Hid Hobj. split.
  - unfold shortieAPI.CreateURL. rewrite Hid.
    cbn [SaveURL LocalStorage_urlStorage obind].
    by rewrite (Local_SaveURL_existing _ _ object).
  - intros w'. cbn [after]. by rewrite (Local_GetURL_hit _ _ _ object).
Qed.

Lemma CreateURL_first_writer_wins_witness :
  let w := mkWorld (time.of_unix 1700000000 0) dynamodb.Serves in
  let first := created "4e24c46962" "http://first.example/" 0 in
  let s := LocalStorage.mk {[ "4e24c46962"%string := first ]} in
  shortIDOf "https://example.com/data/hi" = Some "4e24c46962"%string
  ∧ LocalStorage.Objects s !! "4e24c46962"%string = Some first
  ∧ shortieAPI.CreateURL w s (BindOk "https://example.com/data/hi" 0)
    = Returned (s, mkResponse http.StatusOK None
                     (JSONShortUrl "http://localhost:8421/shortie/4e24c46962")).
Proof.
  cbn zeta.
  assert (Hid : shortIDOf "https://example.com/data/hi"
                = Some "4e24c46962"%string) by (by vm_compute).
  split; [exact Hid|]. split; [reflexivity|].
  pose proof (CreateURL_first_writer_wins
                (mkWorld (time.of_unix 1700000000 0) dynamodb.Serves)
                (LocalStorage.mk
                   {[ "4e24c46962"%string
                      := created "4e24c46962" "http://first.example/" 0 ]})
                "https://example.com/data/hi" 0 "4e24c46962"
                (created "4e24c46962" "http://first.example/" 0)
                Hid eq_refl) as (Hcreate & _).
  exact Hcreate.
Defined.

(** X13. Create, follow, count, over HTTP: after [CreateURL] for a
    non-empty URL whose identifier is free, the redirect handler answers
    307 with that URL in [Location], and the statistics handler, on the
    day of the redirect, then answers 200 with 1, 1, 1. *)
Theorem create_then_redirect (w1 w2 w3 : world) (now1 now2 : time.Time)
    (s : LocalStorage.t) (url : string) (expiration : Z) (shortID : string) :
  shortIDOf url = Some shortID →
  LocalStorage.Objects s !! shortID = None →
  url ≠ ""%string →
  sameDay (now w2) now2 → sameDay now1 now2 →
  ∃ s1 s2,
    shortieAPI.CreateURL w1 s (BindOk url expiration)
    = Returned (s1, mkResponse http.StatusOK None
                      (JSONShortUrl
                         ("http://localhost:8421/shortie/" +:+ shortID)))
    ∧ shortieAPI.HandleRedirect w2 s1 shortID
      = Returned (s2, mkResponse http.StatusTemporaryRedirect (Some url) NoBody)
    ∧ shortieAPI.GetUsageStats w3 now1 now2 s2 shortID
      = Returned (s2, mkResponse http.StatusOK None (JSONStats 1 1 1)).
Proof.
  intros Hid Hfresh Hurl Hday2 Hday1.
  eexists _, _. split_and!.
  - unfold shortieAPI.CreateURL. rewrite Hid.
    cbn [SaveURL LocalStorage_urlStorage obind].
    rewrite Local_SaveURL_fresh by done. reflexivity.
  - unfold shortieAPI.HandleRedirect, GetURL, LocalStorage_urlStorage, obind.
    rewrite (Local_GetURL_hit _ _ _ (created shortID url expiration))
      by apply lookup_insert_eq.
    cbn [URL created]. rewrite decide_False by done. reflexivity.
  - unfold shortieAPI.GetUsageStats, GetStatistics, LocalStorage_urlStorage,
      obind.
    rewrite (Local_GetStatistics_hit _ _
               (visited (now w2) (created shortID url expiration)))
      by apply lookup_insert_eq.
    rewrite visited_created, (sameDay_spec _ _ Hday2).
    rewrite aggregate_single by (done || by vm_compute). reflexivity.
Qed.

Lemma create_then_redirect_witness :
  let now := time.of_unix 1700000000 0 in
  let w := mkWorld now dynamodb.Serves in
  shortIDOf "https://example.com/data/hi" = Some "4e24c46962"%string
  ∧ LocalStorage.Objects LocalStorage.new !! "4e24c46962"%string = None
  ∧ "https://example.com/data/hi"%string ≠ ""%string
  ∧ sameDay (now) now
  ∧ ∃ s1 s2,
      shortieAPI.CreateURL w LocalStorage.new
        (BindOk "https://example.com/data/hi" 0)
      = Returned (s1, mkResponse http.StatusOK None
                        (JSONShortUrl
                           "http://localhost:8421/shortie/4e24c46962"))
      ∧ shortieAPI.HandleRedirect w s1 "4e24c46962"
        = Returned (s2, mkResponse http.StatusTemporaryRedirect
                          (Some "https://example.com/data/hi"%string) NoBody)
      ∧ shortieAPI.GetUsageStats w now now s2 "4e24c46962"
        = Returned (s2, mkResponse http.StatusOK None (JSONStats 1 1 1)).
Proof.
  cbn zeta.
  assert (Hid : shortIDOf "https://example.com/data/hi"
                = Some "4e24c46962"%string) by (by vm_compute).
  assert (Hurl : "https://example.com/data/hi"%string ≠ ""%string)
    by discriminate.
  split; [exact Hid|]. split; [reflexivity|]. split; [exact Hurl|].
  split; [reflexivity|].
  exact (create_then_redirect
           (mkWorld (time.of_unix 1700000000 0) dynamodb.Serves)
           (mkWorld (time.of_unix 1700000000 0) dynamodb.Serves)
           (mkWorld (time.of_unix 1700000000 0) dynamodb.Serves)
           (time.of_unix 1700000000 0) (time.of_unix 1700000000 0)
           LocalStorage.new "https://example.com/data/hi" 0 "4e24c46962"
           Hid eq_refl Hurl eq_refl eq_refl).
Defined.

(** X14. The delete handler over the in-memory backend answers 200
    whether or not the identifier exists; afterwards the redirect handler
    answers 404 for the identifier and the statistics handler answers 200
    with three zeros, as for an identifier that never existed. *)
Theorem Local_delete_over_http (w1 w2 w3 : world) (now1 now2 : time.Time)
    (s : LocalStorage.t) (shortID : string) :
  let s' := after (Delete shortID) s in
  shortieAPI.DeleteURL w1 s shortID
  = Returned (s', mkResponse http.StatusOK None NoBody)
  ∧ shortieAPI.HandleRedirect w2 s' shortID
    = Returned (s', mkResponse http.StatusNotFound None (Text "Not Found"))
  ∧ shortieAPI.GetUsageStats w3 now1 now2 s' shortID
    = Returned (s', mkResponse http.StatusOK None (JSONStats 0 0 0)).
Proof.
  cbn zeta.
  assert (Hgone : LocalStorage.Objects (after (Delete shortID) s) !! shortID
                  = None) by apply lookup_delete_eq.
  split_and!.
  - reflexivity.
  - unfold shortieAPI.HandleRedirect, GetURL, LocalStorage_urlStorage, obind.
    by rewrite Local_GetURL_miss.
  - unfold shortieAPI.GetUsageStats, GetStatistics, LocalStorage_urlStorage,
      obind.
    by rewrite Local_GetStatistics_miss, aggregate_empty.
Qed.

(** ** The DynamoDB backend: failures, deferred counting, races *)

Lemma Dynamo_getObject_fails st shortID err :
  DynamoStorage.getObject (dynamodb.Fails err) st shortID
  = (None, Some ("failed to read a shortID: " +:+ awserr.Error err)).
Proof. reflexivity. Qed.

(** X15. A request the service does not serve surfaces as an error of the
    call whose text is the text of the call followed by the whole text of
    the client's error (code, message, extra line, cause), and changes
    neither the table nor the pending goroutines: a failed read starts no
    goroutine and returns the empty URL, failed statistics return an error
    (they do not panic), and the handlers answer 500 with the error text.
    For a create this holds for every error but one with the
    conditional-check code, which it takes for "already exists".  For a
    cancelled request the text of a failed create is
    "failed to save a url: RequestCanceled: request context canceled",
    a line feed, "caused by: context canceled". *)
Theorem Dynamo_failures_surface (err : awserr.t) (st : DynamoStorage.t)
    (shortID url : string) (expiration : Z) (w : world) :
  awserr.Code err ≠ dynamodb.ErrCodeConditionalCheckFailedException →
  aws w = dynamodb.Fails err →
  DynamoStorage.SaveURL (dynamodb.Fails err) st shortID url expiration
  = (st, Some ("failed to save a url: " +:+ awserr.Error err))
  ∧ DynamoStorage.GetURL (dynamodb.Fails err) st shortID
    = (st, (""%string,
            Some ("failed to read a shortID: " +:+ awserr.Error err)))
  ∧ DynamoStorage.DeleteURL (dynamodb.Fails err) st shortID
    = (st, Some ("failed to delete a url object: " +:+ awserr.Error err))
  ∧ DynamoStorage.GetStatistics (dynamodb.Fails err) st shortID
    = Returned (st, (∅, Some ("failed to read a shortID: "
                               +:+ awserr.Error err)))
  ∧ shortieAPI.HandleRedirect w st shortID
    = Returned (st, mkResponse http.StatusInternalServerError None
                      (JSONError ("failed to read a shortID: "
                                  +:+ awserr.Error err)))
  ∧ shortieAPI.DeleteURL w st shortID
    = Returned (st, mkResponse http.StatusInternalServerError None
                      (JSONError ("failed to delete a url object: "
                                  +:+ awserr.Error err)))
  ∧ (∀ now1 now2,
       shortieAPI.GetUsageStats w now1 now2 st shortID
       = Returned (st, mkResponse http.StatusInternalServerError None
                         (JSONError ("failed to read a shortID: "
                                     +:+ awserr.Error err))))
  ∧ awserr.Error (awserr.New "RequestCanceled" "request context canceled" ""
                    (Some "context canceled"%string))
    = ("RequestCanceled: request context canceled" +:+ awserr.LF
       +:+ "caused by: context canceled")%string
  ∧ awserr.Error (awserr.New "AccessDeniedException" "stub"
                    "status code: 400, request id: " None)
    = ("AccessDeniedException: stub" +:+ awserr.LF +:+ awserr.TAB
       +:+ "status code: 400, request id: ")%string.
Proof.
  intros Hcode Haws.
  assert (Hdelete : DynamoStorage.DeleteURL (dynamodb.Fails err) st shortID
                    = (st, Some ("failed to delete a url object: "
                                 +:+ awserr.Error err)))
    by (by destruct st).
  split_and!.
  - by apply Dynamo_SaveURL_fails.
  - reflexivity.
  - exact Hdelete.
  - reflexivity.
  - unfold shortieAPI.HandleRedirect, GetURL, DynamoStorage_urlStorage, obind.
    by rewrite Haws.
  - unfold shortieAPI.DeleteURL, DeleteURL, DynamoStorage_urlStorage, obind.
    by rewrite Haws, Hdelete.
  - intros now1 now2.
    unfold shortieAPI.GetUsageStats, GetStatistics, DynamoStorage_urlStorage,
      obind.
    by rewrite Haws.
  - reflexivity.
  - reflexivity.
Qed.

Lemma Dynamo_failures_surface_witness :
  let err := awserr.New "RequestCanceled" "request context canceled" ""
               (Some "context canceled"%string) in
  let w := mkWorld (time.of_unix 1700000000 0) (dynamodb.Fails err) in
  awserr.Code err ≠ dynamodb.ErrCodeConditionalCheckFailedException
  ∧ DynamoStorage.SaveURL (dynamodb.Fails err)
      DynamoStorage.new "abc" "http://x.com" 0
    = (DynamoStorage.new,
       Some ("failed to save a url: RequestCanceled: request context canceled"
             +:+ awserr.LF +:+ "caused by: context canceled")%string).
Proof.
  cbn zeta.
  set (err := awserr.New "RequestCanceled" "request context canceled" ""
                (Some "context canceled"%string)).
  assert (Hcode : awserr.Code err
                  ≠ dynamodb.ErrCodeConditionalCheckFailedException)
    by discriminate.
  split; [exact Hcode|].
  pose proof (Dynamo_failures_surface err DynamoStorage.new
                "abc" "http://x.com" 0
                (mkWorld (time.of_unix 1700000000 0) (dynamodb.Fails err))
                Hcode eq_refl) as (Hsave & _).
  exact Hsave.
Defined.

Lemma Dynamo_GetURL_hit_state st shortID object :
  DynamoStorage.dynamo st !! shortID = Some object →
  DynamoStorage.GetURL dynamodb.Serves st shortID
  = ({| DynamoStorage.dynamo := DynamoStorage.dynamo st;
        DynamoStorage.spawned := DynamoStorage.spawned st ++ [object] |},
     (URL object, None)).
Proof.
  intros H. unfold DynamoStorage.GetURL, DynamoStorage.getObject,
    dynamodb.GetItemWithContext. by rewrite H.
Qed.

Lemma increment_Serves now table object :
  DynamoStorage.increment now dynamodb.Serves table object
  = (<[ShortID object := visited now object]> table, []).
Proof.
  unfold DynamoStorage.increment.
  fold (todayKey now). rewrite todayKey_spec. fold (visited now object).
  unfold dynamodb.PutItemWithContext.
  by destruct (table !! ShortID (visited now object)).
Qed.

(** X16. On the DynamoDB backend a read never writes: whatever the
    service answers, [GetURL] leaves the table as it is and starts at most
    one goroutine.  So after a create and a read the statistics are still
    empty (no read-your-writes, unlike the in-memory backend); they show
    the visit once the goroutine has run and its put was served. *)
Theorem Dynamo_visit_is_deferred (a : dynamodb.answer) (st : DynamoStorage.t)
    (now : time.Time) (shortID url : string) (expiration : Z) :
  DynamoStorage.dynamo (DynamoStorage.GetURL a st shortID).1
  = DynamoStorage.dynamo st
  ∧ (∃ started,
       DynamoStorage.spawned (DynamoStorage.GetURL a st shortID).1
       = DynamoStorage.spawned st ++ started
       ∧ (length started ≤ 1)%nat)
  ∧ (let st1 := (DynamoStorage.SaveURL dynamodb.Serves DynamoStorage.new
                   shortID url expiration).1 in
     let st2 := (DynamoStorage.GetURL dynamodb.Serves st1 shortID).1 in
     let st3 := DynamoStorage.run_spawned now dynamodb.Serves st2 in
     (DynamoStorage.GetURL dynamodb.Serves st1 shortID).2 = (url, None)
     ∧ DynamoStorage.GetStatistics dynamodb.Serves st2 shortID
       = Returned (st2, (∅, None))
     ∧ DynamoStorage.GetStatistics dynamodb.Serves st3 shortID
       = Returned (st3, ({[dayBucketKey_spec now := 1]}, None))).
Proof.
  split_and!.
  - unfold DynamoStorage.GetURL.
    by destruct (DynamoStorage.getObject a st shortID) as [[o|] [e|]].
  - unfold DynamoStorage.GetURL.
    destruct (DynamoStorage.getObject a st shortID) as [[o|] [e|]];
      cbn [fst DynamoStorage.spawned];
      first [ exists [o]; split; [reflexivity|cbn [length]; lia]
            | exists []; split; [by rewrite app_nil_r|cbn [length]; lia] ].
  - cbn zeta.
    set (c := created shortID url expiration).
    assert (Hst1 : (DynamoStorage.SaveURL dynamodb.Serves DynamoStorage.new
                      shortID url expiration).1
                   = DynamoStorage.mk {[shortID := c]} []) by reflexivity.
    rewrite Hst1.
    rewrite (Dynamo_GetURL_hit_state _ _ c) by apply lookup_insert_eq.
    cbn [fst snd DynamoStorage.dynamo DynamoStorage.spawned app].
    split; [done|]. split.
    + unfold DynamoStorage.GetStatistics, DynamoStorage.getObject,
        dynamodb.GetItemWithContext.
      cbn [DynamoStorage.dynamo]. by rewrite lookup_singleton_eq.
    + unfold DynamoStorage.run_spawned.
      cbn [DynamoStorage.spawned DynamoStorage.dynamo].
      rewrite increment_Serves. cbn [fst].
      change (ShortID c) with shortID.
      unfold DynamoStorage.GetStatistics, DynamoStorage.getObject,
        dynamodb.GetItemWithContext.
      cbn [DynamoStorage.dynamo]. rewrite lookup_insert_eq.
      subst c. by rewrite visited_created.
Qed.

(** X17. The increment is a put of the whole record as the read saw it.
    Two reads that both happen before their goroutines run count as one
    visit: the second put replaces the first.  Read, run, read, run
    counts two. *)
Theorem Dynamo_concurrent_reads_lose_a_visit (st : DynamoStorage.t)
    (shortID : string) (object : URLObject) (t1 t2 : time.Time) :
  DynamoStorage.dynamo st !! shortID = Some object →
  ShortID object = shortID →
  DynamoStorage.spawned st = [] →
  let get := λ st, (DynamoStorage.GetURL dynamodb.Serves st shortID).1 in
  let run := λ t st, DynamoStorage.run_spawned t dynamodb.Serves st in
  DynamoStorage.dynamo (run t2 (run t1 (get (get st)))) !! shortID
  = Some (visited t2 object)
  ∧ DynamoStorage.dynamo (run t2 (get (run t1 (get st)))) !! shortID
    = Some (visited t2 (visited t1 object)).
Proof.
  intros Hobj Hkey Hnone. cbn zeta. destruct st as [table pending].
  cbn [DynamoStorage.dynamo DynamoStorage.spawned] in *. subst pending.
  rewrite (Dynamo_GetURL_hit_state (DynamoStorage.mk table []) _ object)
    by done.
  cbn [fst DynamoStorage.dynamo DynamoStorage.spawned app].
  split.
  - rewrite (Dynamo_GetURL_hit_state (DynamoStorage.mk table [object]) _ object)
      by done.
    cbn [fst DynamoStorage.dynamo DynamoStorage.spawned app].
    unfold DynamoStorage.run_spawned.
    cbn [DynamoStorage.dynamo DynamoStorage.spawned].
    rewrite !increment_Serves. cbn [fst].
    rewrite Hkey. apply lookup_insert_eq.
  - unfold DynamoStorage.run_spawned at 2.
    cbn [DynamoStorage.dynamo DynamoStorage.spawned].
    rewrite increment_Serves. cbn [fst]. rewrite Hkey.
    rewrite (Dynamo_GetURL_hit_state
               (DynamoStorage.mk (<[shortID := visited t1 object]> table) [])
               _ (visited t1 object))
      by apply lookup_insert_eq.
    cbn [fst DynamoStorage.dynamo DynamoStorage.spawned app].
    unfold DynamoStorage.run_spawned.
    cbn [DynamoStorage.dynamo DynamoStorage.spawned].
    rewrite increment_Serves. cbn [fst].
    change (ShortID (visited t1 object)) with (ShortID object).
    rewrite Hkey. apply lookup_insert_eq.
Qed.

Lemma Dynamo_concurrent_reads_lose_a_visit_witness :
  let now := time.of_unix 1700000000 0 in
  let object := created "abc" "http://x.com" 0 in
  let st := DynamoStorage.mk {[ "abc"%string := object ]} [] in
  let get := λ st, (DynamoStorage.GetURL dynamodb.Serves st "abc").1 in
  let run := λ t st, DynamoStorage.run_spawned t dynamodb.Serves st in
  DynamoStorage.dynamo st !! "abc"%string = Some object
  ∧ ShortID object = "abc"%string
  ∧ DynamoStorage.spawned st = []
  ∧ Usage (visited now object) = {[dayBucketKey_spec now := 1]}
  ∧ DynamoStorage.dynamo (run now (run now (get (get st)))) !! "abc"%string
    = Some (visited now object).
Proof.
  cbn zeta. split; [reflexivity|]. split; [reflexivity|].
  split; [reflexivity|]. split; [reflexivity|].
  pose proof (Dynamo_concurrent_reads_lose_a_visit
                (DynamoStorage.mk
                   {[ "abc"%string := created "abc" "http://x.com" 0 ]} [])
                "abc" (created "abc" "http://x.com" 0)
                (time.of_unix 1700000000 0) (time.of_unix 1700000000 0)
                eq_refl eq_refl eq_refl) as (Hlost & _).
  exact Hlost.
Defined.

(** X18. A goroutine that runs after a delete brings the record back: a
    read, a delete and then the put of the goroutine leave the identifier
    stored again, with the URL the read saw and today's count one
    higher. *)
Theorem Dynamo_goroutine_undoes_delete (st : DynamoStorage.t)
    (shortID : string) (object : URLObject) (now : time.Time) :
  DynamoStorage.dynamo st !! shortID = Some object →
  ShortID object = shortID →
  DynamoStorage.spawned st = [] →
  let st1 := (DynamoStorage.GetURL dynamodb.Serves st shortID).1 in
  let st2 := (DynamoStorage.DeleteURL dynamodb.Serves st1 shortID).1 in
  let st3 := DynamoStorage.run_spawned now dynamodb.Serves st2 in
  DynamoStorage.dynamo st2 !! shortID = None
  ∧ DynamoStorage.dynamo st3 !! shortID = Some (visited now object)
  ∧ (DynamoStorage.GetURL dynamodb.Serves st3 shortID).2 = (URL object, None).
Proof.
  intros Hobj Hkey Hnone. cbn zeta. destruct st as [table pending].
  cbn [DynamoStorage.dynamo DynamoStorage.spawned] in *. subst pending.
  rewrite (Dynamo_GetURL_hit_state (DynamoStorage.mk table []) _ object)
    by done.
  cbn [fst DynamoStorage.dynamo DynamoStorage.spawned app].
  unfold DynamoStorage.DeleteURL, dynamodb.DeleteItemWithContext.
  cbn [fst DynamoStorage.dynamo DynamoStorage.spawned].
  unfold DynamoStorage.run_spawned.
  cbn [DynamoStorage.dynamo DynamoStorage.spawned].
  rewrite increment_Serves. cbn [fst]. rewrite Hkey.
  split; [apply lookup_delete_eq|].
  split; [apply lookup_insert_eq|].
  rewrite (Dynamo_GetURL_hit _ _ (visited now object))
    by apply lookup_insert_eq.
  done.
Qed.

Lemma Dynamo_goroutine_undoes_delete_witness :
  let now := time.of_unix 1700000000 0 in
  let object := created "abc" "http://x.com" 0 in
  let st := DynamoStorage.mk {[ "abc"%string := object ]} [] in
  let st1 := (DynamoStorage.GetURL dynamodb.Serves st "abc").1 in
  let st2 := (DynamoStorage.DeleteURL dynamodb.Serves st1 "abc").1 in
  let st3 := DynamoStorage.run_spawned now dynamodb.Serves st2 in
  DynamoStorage.dynamo st !! "abc"%string = Some object
  ∧ ShortID object = "abc"%string
  ∧ DynamoStorage.spawned st = []
  ∧ (DynamoStorage.GetURL dynamodb.Serves st3 "abc").2
    = ("http://x.com"%string, None).
Proof.
  cbn zeta. split; [reflexivity|]. split; [reflexivity|].
  split; [reflexivity|].
  pose proof (Dynamo_goroutine_undoes_delete
                (DynamoStorage.mk
                   {[ "abc"%string := created "abc" "http://x.com" 0 ]} [])
                "abc" (created "abc" "http://x.com" 0)
                (time.of_unix 1700000000 0)
                eq_refl eq_refl eq_refl) as (_ & _ & Hback).
  exact Hback.
Defined.

(** X19. A goroutine whose put is not served loses its visit for good:
    the table stays as it is, the goroutine is gone from the pending ones
    (nothing retries it), and all that is left is one log line,
    "failed to increment usage: " followed by the whole text of the
    client's error. *)
Theorem Dynamo_failed_increment_is_dropped (now : time.Time) (err : awserr.t)
    (st : DynamoStorage.t) (object : URLObject) (rest : list URLObject) :
  DynamoStorage.spawned st = object :: rest →
  DynamoStorage.run_spawned now (dynamodb.Fails err) st
  = {| DynamoStorage.dynamo := DynamoStorage.dynamo st;
       DynamoStorage.spawned := rest |}
  ∧ DynamoStorage.increment now (dynamodb.Fails err)
      (DynamoStorage.dynamo st) object
    = (DynamoStorage.dynamo st,
       ["failed to increment usage: " +:+ awserr.Error err]).
Proof.
  intros Hspawned. unfold DynamoStorage.run_spawned. by rewrite Hspawned.
Qed.

Lemma Dynamo_failed_increment_is_dropped_witness :
  let now := time.of_unix 1700000000 0 in
  let err := awserr.New "RequestCanceled" "request context canceled" ""
               (Some "context canceled"%string) in
  let object := created "abc" "http://x.com" 0 in
  let st := (DynamoStorage.GetURL dynamodb.Serves
               (DynamoStorage.mk {[ "abc"%string := object ]} []) "abc").1 in
  DynamoStorage.spawned st = [object]
  ∧ DynamoStorage.run_spawned now (dynamodb.Fails err) st
    = DynamoStorage.mk {[ "abc"%string := object ]} []
  ∧ DynamoStorage.increment now (dynamodb.Fails err)
      (DynamoStorage.dynamo st) object
    = (DynamoStorage.dynamo st,
       [("failed to increment usage: RequestCanceled: request context canceled"
         +:+ awserr.LF +:+ "caused by: context canceled")%string]).
Proof.
  cbn zeta. split; [reflexivity|].
  exact (Dynamo_failed_increment_is_dropped
           (time.of_unix 1700000000 0)
           (awserr.New "RequestCanceled" "request context canceled" ""
              (Some "context canceled"%string))
           (DynamoStorage.GetURL dynamodb.Serves
              (DynamoStorage.mk
                 {[ "abc"%string := created "abc" "http://x.com" 0 ]} [])
              "abc").1
           (created "abc" "http://x.com" 0) [] eq_refl).
Defined.

Lemma goodItem_visited now item : goodItem item → goodItem (visited now item).
Proof.
  intros [Hversion Hdays]. split; [done|].
  intros key count [[-> _]|[_ Hold]]%visited_lookup.
  - by exists (dayOf now).
  - by eapply Hdays.
Qed.

Lemma goodItem_created shortID url expiration :
  goodItem (created shortID url expiration).
Proof.
  split; [done|]. intros key count. unfold created. cbn [Usage].
  by rewrite lookup_empty.
Qed.

(** X20. Whatever the calls, the answers of the service and the moments
    the goroutines run, every item of the table sits under its own
    [shortID], has version 0 and has only UTC-midnight keys in its usage
    mapping; the objects held by pending goroutines have version 0 and
    such keys too. *)
Theorem Dynamo_items_well_formed (st : DynamoStorage.t) :
  dreachable st →
  (∀ key item, DynamoStorage.dynamo st !! key = Some item →
               ShortID item = key ∧ goodItem item)
  ∧ Forall goodItem (DynamoStorage.spawned st).
Proof.
  induction 1 as [|st c Hreach [IHtable IHspawned]].
  - split; [|constructor]. intros key item.
    unfold DynamoStorage.new. cbn [DynamoStorage.dynamo].
    by rewrite lookup_empty.
  - destruct st as [table pending].
    cbn [DynamoStorage.dynamo DynamoStorage.spawned] in *.
    destruct c as [a id url expiration|a id|a id|a id|now a]; cbn [dafter].
    + unfold DynamoStorage.SaveURL, dynamodb.PutItemWithContext.
      cbn [DynamoStorage.dynamo DynamoStorage.spawned ShortID].
      destruct a as [|code].
      * destruct (table !! id) eqn:Hid; cbn [fst DynamoStorage.dynamo
          DynamoStorage.spawned]; [done|].
        split; [|done]. intros key item. rewrite lookup_insert.
        destruct (decide (id = key)) as [->|_]; [|apply IHtable].
        intros [= <-]. split; [done|].
        apply (goodItem_created key url expiration).
      * by destruct (decide (awserr.Code code = _)).
    + unfold DynamoStorage.GetURL, DynamoStorage.getObject,
        dynamodb.GetItemWithContext. cbn [DynamoStorage.dynamo].
      destruct a as [|code]; [|done].
      destruct (table !! id) as [o|] eqn:Hid;
        cbn [fst DynamoStorage.dynamo DynamoStorage.spawned]; [|done].
      split; [done|]. apply Forall_app. split; [done|].
      constructor; [|constructor]. by apply (IHtable id).
    + unfold DynamoStorage.DeleteURL, dynamodb.DeleteItemWithContext.
      cbn [DynamoStorage.dynamo DynamoStorage.spawned].
      destruct a as [|code]; cbn [fst DynamoStorage.dynamo
        DynamoStorage.spawned]; [|done].
      split; [|done]. intros key item Hitem.
      apply lookup_delete_Some in Hitem as [_ Hitem]. by apply IHtable.
    + unfold DynamoStorage.GetStatistics.
      by destruct (DynamoStorage.getObject a _ id) as [[o|] [e|]].
    + unfold DynamoStorage.run_spawned. cbn [DynamoStorage.spawned].
      destruct pending as [|o rest]; [done|].
      apply Forall_cons in IHspawned as [Ho Hrest].
      cbn [DynamoStorage.dynamo DynamoStorage.spawned].
      split; [|done]. destruct a as [|code].
      * rewrite increment_Serves. cbn [fst]. intros key item.
        rewrite lookup_insert.
        destruct (decide (ShortID o = key)) as [<-|_]; [|apply IHtable].
        intros [= <-]. split; [done|]. by apply goodItem_visited.
      * apply IHtable.
Qed.

Lemma Dynamo_items_well_formed_witness :
  let now := time.of_unix 1700000000 0 in
  let st := dafter (DRun now dynamodb.Serves)
              (dafter (DGet dynamodb.Serves "abc")
                 (dafter (DSave dynamodb.Serves "abc" "http://x.com" 0)
                    DynamoStorage.new)) in
  dreachable st
  ∧ DynamoStorage.dynamo st !! "abc"%string
    = Some (visited now (created "abc" "http://x.com" 0))
  ∧ Forall goodItem (DynamoStorage.spawned st).
Proof.
  cbn zeta.
  assert (Hreach : dreachable
            (dafter (DRun (time.of_unix 1700000000 0) dynamodb.Serves)
               (dafter (DGet dynamodb.Serves "abc")
                  (dafter (DSave dynamodb.Serves "abc" "http://x.com" 0)
                     DynamoStorage.new))))
    by (do 3 apply dreachable_step; apply dreachable_new).
  split; [exact Hreach|]. split; [reflexivity|].
  pose proof (Dynamo_items_well_formed _ Hreach) as (_ & Hspawned).
  exact Hspawned.
Defined.

(** ** Start-up *)

(** X21. [InitializeTable] can be run at every start: when the service
    answers it returns no error whether or not the table exists, leaves
    the table existing and every other table in place, and a second run
    changes nothing.  A failure whose code is neither of the two "already
    there" codes is reported, as "failed to create the table: " followed
    by the whole text of the client's error, and creates nothing; a
    failure with one of the two codes is taken for success. *)
Theorem InitializeTable_is_idempotent (tables : gset string) :
  let first := InitializeTable dynamodb.Serves tables in
  first.2 = None
  ∧ first.1 = {[tableName]} ∪ tables
  ∧ InitializeTable dynamodb.Serves first.1 = (first.1, None)
  ∧ (∀ err,
       awserr.Code err ≠ dynamodbTables.ErrCodeTableAlreadyExistsException →
       awserr.Code err ≠ dynamodbTables.ErrCodeResourceInUseException →
       InitializeTable (dynamodb.Fails err) tables
       = (tables, Some ("failed to create the table: " +:+ awserr.Error err)))
  ∧ (∀ err,
       awserr.Code err = dynamodbTables.ErrCodeTableAlreadyExistsException
       ∨ awserr.Code err = dynamodbTables.ErrCodeResourceInUseException →
       InitializeTable (dynamodb.Fails err) tables = (tables, None))
  ∧ InitializeTable
      (dynamodb.Fails (awserr.New "AccessDeniedException" "stub"
                         "status code: 400, request id: " None))
      tables
    = (tables,
       Some ("failed to create the table: AccessDeniedException: stub"
             +:+ awserr.LF +:+ awserr.TAB
             +:+ "status code: 400, request id: ")%string).
Proof.
  cbn zeta.
  assert (Hfirst : InitializeTable dynamodb.Serves tables
                   = ({[tableName]} ∪ tables, None)).
  { unfold InitializeTable, dynamodbTables.CreateTable.
    destruct (decide (tableName ∈ tables)) as [Hin|Hnotin]; [|done].
    rewrite decide_True by (by right). f_equal.
    symmetry. by apply subseteq_union_1_L, singleton_subseteq_l. }
  rewrite Hfirst. cbn [fst snd]. split_and!; [done..| | | |].
  - unfold InitializeTable, dynamodbTables.CreateTable.
    rewrite decide_True by (apply elem_of_union_l, elem_of_singleton_2; done).
    by rewrite decide_True by (by right).
  - intros err H1 H2. unfold InitializeTable, dynamodbTables.CreateTable.
    rewrite decide_False; [done|]. by intros [?|?].
  - intros err Hcode. unfold InitializeTable, dynamodbTables.CreateTable.
    by rewrite decide_True.
  - reflexivity.
Qed.

(** ** Collisions of identifiers *)

Lemma digit_inj a b :
  0 <= a < 16 → 0 <= b < 16 → hex.digit a = hex.digit b → a = b.
Proof.
  intros Ha Hb. unfold hex.digit.
  assert (Hk : ∀ ka kb : nat, (ka < 16)%nat → (kb < 16)%nat →
            default (Ascii.ascii_of_nat 48) (String.get ka hex.hextable)
            = default (Ascii.ascii_of_nat 48) (String.get kb hex.hextable) →
            ka = kb).
  { intros ka kb Hka Hkb.
    do 16 (destruct ka as [|ka];
           [do 16 (destruct kb as [|kb];
                   [intros H; first [reflexivity|discriminate H]|]); lia|]).
    lia. }
  intros H. apply Hk in H; lia.
Qed.

Lemma nibbles v :
  isByte v →
  0 <= Z.shiftr v 4 < 16 ∧ 0 <= Z.land v 15 < 16
  ∧ v = 16 * Z.shiftr v 4 + Z.land v 15.
Proof.
  intros [Hlo Hhi]. rewrite Z.shiftr_div_pow2 by lia.
  change 15 with (Z.ones 4). rewrite Z.land_ones by lia.
  change (2 ^ 4) with 16.
  pose proof (Z.div_mod v 16 ltac:(lia)).
  pose proof (Z.mod_pos_bound v 16 ltac:(lia)).
  assert (0 <= v / 16 < 16)
    by (split; [apply Z.div_pos; lia|apply Z.div_lt_upper_bound; lia]).
  lia.
Qed.

(** The hexadecimal text determines the bytes. *)
Lemma Encode_inj src1 : ∀ src2,
  Forall isByte src1 → Forall isByte src2 →
  hex.EncodeToString src1 = hex.EncodeToString src2 → src1 = src2.
Proof.
  induction src1 as [|v1 src1 IH]; intros [|v2 src2] H1 H2 Heq;
    try done.
  apply Forall_cons in H1 as [Hv1 H1]. apply Forall_cons in H2 as [Hv2 H2].
  cbn [hex.EncodeToString] in Heq. injection Heq as Hhigh Hlow Hrest.
  destruct (nibbles v1 Hv1) as (? & ? & Hsplit1).
  destruct (nibbles v2 Hv2) as (? & ? & Hsplit2).
  apply digit_inj in Hhigh; [|done..]. apply digit_inj in Hlow; [|done..].
  f_equal; [lia|by apply IH].
Qed.

Lemma be_bytes_isByte width x : Forall isByte (sha1.be_bytes width x).
Proof.
  unfold sha1.be_bytes. apply Forall_forall. intros v Hv%list_elem_of_In.
  apply in_map_iff in Hv as (k & <- & _).
  change 255 with (Z.ones 8). rewrite Z.land_ones by lia.
  apply Z.mod_pos_bound. lia.
Qed.

Lemma Sum_isByte data : Forall isByte (sha1.Sum data).
Proof.
  unfold sha1.Sum.
  destruct (sha1.blocks _ _ _) as [[[[h0 h1] h2] h3] h4].
  rewrite !Forall_app. split_and!; apply be_bytes_isByte.
Qed.

(** X22. Two URLs get the same identifier exactly when the SHA-1 digests
    of the URL name space followed by each URL agree in their first five
    bytes: the identifier carries 40 bits of the digest, and neither the
    rest of the digest nor the version and variant bits of the UUID play a
    part.  In particular equal URLs always collide. *)
Theorem identifiers_collide_on_40_bits (url1 url2 : string) :
  let prefix := λ url,
    take 5 (sha1.Sum (uuid.NameSpaceURL ++ bytes_of_string url)) in
  (shortIDOf url1 = shortIDOf url2 ↔ prefix url1 = prefix url2)
  ∧ shortIDOf url1 = Some (hex.EncodeToString (prefix url1))
  ∧ length (prefix url1) = 5%nat.
Proof.
  cbn zeta. rewrite !shortIDOf_digest. split_and!.
  - split.
    + intros [= Heq]. eapply Encode_inj; [..|exact Heq];
        apply Forall_take, Sum_isByte.
    + by intros ->.
  - done.
  - rewrite length_take, Sum_length. lia.
Qed.
